(** * spinup: the provisioning handler of the api package

    A shallow embedding of the Go package [api]: the HTTP handler
    [CreateService] with the helpers it calls ([validateToken], [portcheck],
    [prepareService], [createDockerComposeFile], [startService],
    [lastContainerID], [updateSqliteDB]).

    The handler talks to the outside (sockets, the file system, external
    commands, sqlite).  Every such call is answered by a [World], a record of
    oracles, and leaves an [event] in a trace, so that "was never invoked"
    and "terminates the process" are statements about the value a run
    returns. *)

From Stdlib Require Import String Ascii ZArith List Bool DecimalString Lia.
Import ListNotations.

Open Scope Z_scope.
Open Scope string_scope.

(** ** Go values *)

(** A Go [error] is represented by its message ([err.Error()]); a nil-able
    error is an [option]. *)
Definition error : Type := string.

Definition notNil (err : option error) : bool :=
  match err with Some _ => true | None => false end.

(** [err.Error()]; only evaluated behind an [err != nil] test. *)
Definition Error (err : option error) : string :=
  match err with Some e => e | None => "" end.

(** [%d] of an [int]. *)
Definition itoa (z : Z) : string := NilZero.string_of_int (Z.to_int z).

Definition dquote : string := String (ascii_of_nat 34) "".
Definition newline : string := String (ascii_of_nat 10) "".
Definition tab : string := String (ascii_of_nat 9) "".

(** [time.Second], in nanoseconds. *)
Definition Second : Z := 1000000000.

(** The functions of Go's [strings] package the handler uses. *)
Module strings.

(** [strings.Contains(s, substr)]. *)
Fixpoint Contains (s substr : string) : bool :=
  if prefix substr s then true
  else match s with
       | EmptyString => false
       | String _ s' => Contains s' substr
       end.

(** The scan of [strings.Split] for a non-empty separator: [cur] is the
    piece being read and [skip] the number of characters of a separator
    still to drop. *)
Fixpoint splitScan (sep s : string) (skip : nat) (cur : string) : list string :=
  match s with
  | EmptyString => [cur]
  | String c s' =>
      match skip with
      | S k => splitScan sep s' k cur
      | O =>
          if prefix sep s
          then cur :: splitScan sep s' (String.length sep - 1) ""
          else splitScan sep s' 0 (cur ++ String c "")
      end
  end.

(** [strings.Split(s, sep)], [sep] not empty. *)
Definition Split (s sep : string) : list string := splitScan sep s 0 "".

End strings.

(** ** The structs of the package *)

Record dbCluster : Type := mkDbCluster {
  Name : string;
  ID : string;
  Type_ : string;
  Port : Z;
  MajVersion : Z;
  MinVersion : Z;
  Memory : string;
  Storage : string
}.

Record service : Type := mkService {
  Duration : Z;
  UserID : string;
  (* one of arm64v8 or arm32v7 or amd64 *)
  Architecture : string;
  Db : dbCluster
}.

Record serviceResponse : Type := mkServiceResponse {
  HostName : string;
  ResponsePort : Z;
  ContainerID : string
}.

(** The zero value of [var s service]. *)
Definition zeroDbCluster : dbCluster := mkDbCluster "" "" "" 0 0 0 "" "".
Definition zeroService : service := mkService 0 "" "" zeroDbCluster.

(** Field assignments. *)
Definition setDbPort (s : service) (p : Z) : service :=
  let d := Db s in
  mkService (Duration s) (UserID s) (Architecture s)
    (mkDbCluster (Name d) (ID d) (Type_ d) p (MajVersion d) (MinVersion d)
       (Memory d) (Storage d)).

Definition setDbID (s : service) (id : string) : service :=
  let d := Db s in
  mkService (Duration s) (UserID s) (Architecture s)
    (mkDbCluster (Name d) id (Type_ d) (Port d) (MajVersion d) (MinVersion d)
       (Memory d) (Storage d)).

Definition setArchitecture (s : service) (a : string) : service :=
  mkService (Duration s) (UserID s) a (Db s).

(** The part of an [*http.Request] the handler reads: the method, the
    [Authorization] header and what [ioutil.ReadAll(req.Body)] returns. *)
Record Request : Type := mkRequest {
  Method : string;
  Authorization : string;
  Body : string * option error
}.

(** ** Templates

    [text/template] restricted to literal text and field actions
    ([{{.Field}}]), evaluated against a struct seen, as the library sees it,
    through its field names. *)
Inductive node : Type :=
| Text (s : string)
| Field (name : string).

Definition template : Type := list node.

Inductive value : Type :=
| VString (s : string)
| VUint (n : Z).

Definition printValue (v : value) : string :=
  match v with
  | VString s => s
  | VUint n => itoa n
  end.

Fixpoint field (name : string) (data : list (string * value)) : option value :=
  match data with
  | [] => None
  | (k, v) :: data' => if String.eqb k name then Some v else field name data'
  end.

(** [templ.Execute(f, data)]: the bytes written to [f] and the error.  An
    action on a field the data lacks stops the execution; what was written
    before stays written. *)
Fixpoint Execute (t : template) (data : list (string * value)) : string * option error :=
  match t with
  | [] => ("", None)
  | Text s :: t' =>
      let (out, err) := Execute t' data in (s ++ out, err)
  | Field name :: t' =>
      match field name data with
      | Some v => let (out, err) := Execute t' data in (printValue v ++ out, err)
      | None => ("", Some ("can't evaluate field " ++ name))
      end
  end.

(** ** The world and the trace of a run *)

(** What an [exec.Cmd] run gives back. *)
Record cmdResult : Type := mkCmdResult {
  stdout : string;
  stderr : string;
  exitErr : option error
}.

(** The process-wide configuration set by [init], and the answers of
    everything outside the package.  [JWTToString] belongs to the package
    but its file is not among the sources; [svcName] and [svcTunnelSecret]
    stand for [s.Name] and [s.Tunnel.Secret], which the renderer reads from
    a [Service] whose declaration is not among the sources either. *)
Record World : Type := mkWorld {
  projectDir : string;
  architecture : string;
  JWTToString : string -> string * option error;
  svcName : service -> string;
  svcTunnelSecret : service -> string;
  jsonUnmarshal : string -> service -> service * option error;
  jsonMarshal : serviceResponse -> string * option error;
  filepathJoin : string -> string -> string;
  DialTimeout : string -> string -> Z -> option error;
  osMkdirAll : string -> Z -> option error;
  osCreate : string -> option error;
  ParseFiles : string -> template * option error;
  Run : list string -> cmdResult;
  CombinedOutput : list string -> string * option error;
  sqlOpen : string -> string -> option error;
  dbExec : string -> option error;
  dbBegin : option error;
  txPrepare : string -> option error;
  stmtExec : string -> string -> Z -> option error;
  txCommit : option error
}.

Inductive event : Type :=
| EvLog (msg : string)
| EvPrintln (msg : string)
| EvHttpError (msg : string) (code : Z)
| EvFprintf (msg : string)
| EvResponseWrite (body : string)
| EvReadAll
| EvDial (network address : string)
| EvMkdirAll (path : string)
| EvCreate (path : string)
| EvFileWrite (path bytes : string)
| EvFileClose (path : string)
| EvParseFiles (name : string)
| EvRun (argv : list string)
| EvCombinedOutput (argv : list string)
| EvSqlOpen (dsn : string)
| EvDbExec (stmt : string)
| EvDbBegin
| EvTxPrepare (query : string)
| EvStmtExec (id name : string) (port : Z)
| EvTxCommit
| EvStmtClose
| EvDbClose.

(** How a piece of code ends: it returns, the process exits ([log.Fatal]
    calls [os.Exit(1)]), or it panics. *)
Inductive outcome (A : Type) : Type :=
| Returned (a : A)
| Exited (code : Z)
| Panicked (e : error).

Arguments Returned {A} a.
Arguments Exited {A} code.
Arguments Panicked {A} e.

Definition io (A : Type) : Type := list event * outcome A.

Definition trace {A} (m : io A) : list event := fst m.
Definition result {A} (m : io A) : outcome A := snd m.

Definition ret {A} (a : A) : io A := ([], Returned a).

Definition bind {A B} (m : io A) (k : A -> io B) : io B :=
  match snd m with
  | Returned a => ((fst m ++ fst (k a))%list, snd (k a))
  | Exited c => (fst m, Exited c)
  | Panicked e => (fst m, Panicked e)
  end.

Definition emit (e : event) : io unit := ([e], Returned tt).

(** [log.Fatal] and [log.Fatalf]. *)
Definition logFatal {A} (msg : string) : io A := ([EvLog msg], Exited 1).

Definition panic {A} (e : error) : io A := ([], Panicked e).

Declare Scope io_scope.
Delimit Scope io_scope with io.
Notation "x <- m ;; k" := (bind m (fun x => k))
  (at level 100, m at next level, right associativity) : io_scope.
Notation "m ;; k" := (bind m (fun _ => k))
  (at level 100, right associativity) : io_scope.
Open Scope io_scope.

(** ** portcheck *)

Definition refused : string := "connect: connection refused".

(** The address [portcheck] dials for a candidate. *)
Definition target (startingPort : Z) : string :=
  "localhost" ++ ":" ++ itoa startingPort.

(** The [for] loop of [portcheck] with [n] candidates left, that is
    [n = endingPort - startingPort]. *)
Fixpoint portscan (w : World) (n : nat) (startingPort : Z) : io (Z * option error) :=
  match n with
  | O =>
      emit (EvLog "WARN: all allocated ports are occupied") ;;
      ret (0, Some "error all allocated ports are occupied")
  | S n' =>
      emit (EvDial "tcp" (target startingPort)) ;;
      let err := DialTimeout w "tcp" (target startingPort) (3 * Second) in
      if notNil err && negb (strings.Contains (Error err) refused) then
        emit (EvLog ("INFO: error on port scanning " ++ itoa startingPort
                       ++ " " ++ Error err)) ;;
        ret (0, err)
      else if notNil err && strings.Contains (Error err) refused then
        emit (EvLog ("INFO: port " ++ itoa startingPort ++ " is unused")) ;;
        ret (startingPort, None)
      else portscan w n' (startingPort + 1)
  end.

Definition portcheck (w : World) : io (Z * option error) :=
  let endingPort := 5440 in
  portscan w (Z.to_nat (endingPort - 5432)) 5432.

(** ** validateToken *)

Definition validateToken (w : World) (authHeader : string) : string * option error :=
  let splitToken := strings.Split authHeader "Bearer " in
  if (List.length splitToken <? 2)%nat then
    ("", Some "cannot validate empty token")
  else
    let reqToken := nth 1 splitToken "" in
    let (userID, err) := JWTToString w reqToken in
    if notNil err then ("", err) else (userID, None).

(** ** The compose renderer (helpers.go) *)

Definition composeTemplate : string := "docker-compose-template.yml".

(** The anonymous struct handed to the template. *)
Definition composeData (w : World) (s : service) : list (string * value) :=
  [ ("Path", VString (projectDir w));
    ("UserID", VString (UserID s));
    ("Architecture", VString (Architecture s));
    ("Name", VString (svcName w s));
    ("Port", VUint 5432);
    ("Secret", VString (svcTunnelSecret w s)) ].

Definition createDockerComposeFile (w : World) (absolutepath : string) (s : service)
  : io (option error) :=
  let outputPath := filepathJoin w absolutepath "docker-compose.yml" in
  emit (EvCreate outputPath) ;;
  if notNil (osCreate w outputPath) then panic (Error (osCreate w outputPath))
  else
    (* defer f.Close() *)
    err <- (emit (EvParseFiles composeTemplate) ;;
            let (templ, err) := ParseFiles w composeTemplate in
            if notNil err then
              ret (Some ("ERROR: parsing template file " ++ Error err))
            else
              let data := composeData w s in
              let (bytes, err) := Execute templ data in
              emit (EvFileWrite outputPath bytes) ;;
              if notNil err then
                ret (Some ("ERROR: executing template file " ++ Error err))
              else ret None) ;;
    emit (EvFileClose outputPath) ;;
    ret err.

Definition prepareService (w : World) (s : service) (path : string) : io (option error) :=
  emit (EvMkdirAll path) ;;
  if notNil (osMkdirAll w path 493 (* 0755 *)) then
    ret (Some ("ERROR: creating project directory at " ++ path))
  else
    err <- createDockerComposeFile w path s ;;
    if notNil err then
      ret (Some ("ERROR: creating service docker-compose file " ++ Error err))
    else ret None.

(** ** The launcher *)

Definition ValidateSystemRequirements (w : World) : io (option error) :=
  emit (EvRun ["which"; "docker-compose"]) ;;
  let err := exitErr (Run w ["which"; "docker-compose"]) in
  if notNil err then ret (Some ("docker-compose doesn't exist " ++ Error err))
  else
    emit (EvRun ["which"; "docker"]) ;;
    let err := exitErr (Run w ["which"; "docker"]) in
    if notNil err then ret err else ret None.

Definition ValidateDockerCompose (w : World) (path : string) : io (option error) :=
  let argv := ["docker-compose"; "-f"; path ++ "/docker-compose.yml"; "config"] in
  emit (EvRun argv) ;;
  let err := exitErr (Run w argv) in
  if notNil err then ret (Some ("validating docker-compose file " ++ Error err))
  else ret None.

Definition startService (w : World) (s : service) (path : string) : io (option error) :=
  err <- ValidateSystemRequirements w ;;
  if notNil err then ret err
  else
    err <- ValidateDockerCompose w path ;;
    if notNil err then ret err
    else
      let argv := ["docker-compose"; "-f"; path ++ "/docker-compose.yml"; "up"; "-d"] in
      emit (EvRun argv) ;;
      let r := Run w argv in
      if notNil (exitErr r) then
        emit (EvPrintln (Error (exitErr r) ++ ": " ++ stderr r)) ;;
        ret (exitErr r)
      else ret None.

Definition lastContainerID (w : World) : io (string * option error) :=
  let argv := ["/bin/bash"; "-c"; "docker ps --last 1 -q"] in
  emit (EvCombinedOutput argv) ;;
  let (output, err) := CombinedOutput w argv in
  if notNil err then ret ("", err) else ret (output, None).

(** ** The metadata store *)

Definition sqlStmt : string :=
  newline ++ tab
  ++ "create table if not exists clusterInfo (id integer not null primary key autoincrement, clusterId text, Name text, Port integer);"
  ++ newline ++ tab.

Definition insertStmt : string :=
  "insert into clusterInfo(clusterId, name, port) values(?, ?, ?)".

(** The deferred [db.Close()] and [stmt.Close()] run when the function
    returns; [log.Fatal] exits the process without running them. *)
Definition updateSqliteDB (w : World) (path dbName : string) (data : service) : io unit :=
  let dsn := path ++ "/" ++ dbName ++ ".db" in
  emit (EvSqlOpen dsn) ;;
  if notNil (sqlOpen w "sqlite3" dsn) then logFatal (Error (sqlOpen w "sqlite3" dsn))
  else
    (emit (EvDbExec sqlStmt) ;;
     (if notNil (dbExec w sqlStmt) then
        emit (EvLog (dquote ++ Error (dbExec w sqlStmt) ++ dquote ++ ": "
                       ++ sqlStmt ++ newline))
      else ret tt) ;;
     emit EvDbBegin ;;
     if notNil (dbBegin w) then logFatal (Error (dbBegin w))
     else
       emit (EvTxPrepare insertStmt) ;;
       if notNil (txPrepare w insertStmt) then logFatal (Error (txPrepare w insertStmt))
       else
         (let d := Db data in
          emit (EvStmtExec (ID d) (Name d) (Port d)) ;;
          if notNil (stmtExec w (ID d) (Name d) (Port d)) then
            logFatal (Error (stmtExec w (ID d) (Name d) (Port d)))
          else emit EvTxCommit) ;;
         emit EvStmtClose) ;;
    emit EvDbClose.

(** ** CreateService *)

Definition StatusMethodNotAllowed : Z := 405.
Definition StatusInternalServerError : Z := 500.

Definition CreateService (w : World) (req : Request) : io unit :=
  if negb (Method req =? "POST") then
    emit (EvHttpError "Invalid Method" StatusMethodNotAllowed)
  else
    let authHeader := Authorization req in
    let (userId, err) := validateToken w authHeader in
    (if notNil err then
       emit (EvLog ("error validating token " ++ Error err)) ;;
       emit (EvHttpError "error validating token" 500)
     else ret tt) ;;
    let s := zeroService in
    emit EvReadAll ;;
    let (byteArray, err) := Body req in
    if notNil err then logFatal ("fatal: reading from readall body " ++ Error err)
    else
      let (s, err) := jsonUnmarshal w byteArray s in
      if notNil err then logFatal ("fatal: reading from readall body " ++ Error err)
      else if negb (UserID s =? userId) then
        emit (EvLog ("user " ++ UserID s
                       ++ " trying to access /createservice using jwt userId "
                       ++ userId)) ;;
        emit (EvHttpError "userid doesn't match" StatusInternalServerError)
      else if negb (Type_ (Db s) =? "postgres") then
        emit (EvFprintf ("currently we don't support " ++ Type_ (Db s))) ;;
        emit (EvHttpError "db type is currently not supported" 500)
      else
        pe <- portcheck w ;;
        (* the error of portcheck is overwritten by the next assignment *)
        let s := setDbPort s (fst pe) in
        let s := setArchitecture s (architecture w) in
        let servicePath := projectDir w ++ "/" ++ UserID s ++ "/" ++ Name (Db s) in
        err <- prepareService w s servicePath ;;
        if notNil err then
          emit (EvLog ("ERROR: preparing service for " ++ UserID s ++ " " ++ Error err)) ;;
          emit (EvHttpError "Error preparing service" 500)
        else
          err <- startService w s servicePath ;;
          if notNil err then
            emit (EvLog ("ERROR: starting service for " ++ UserID s ++ " " ++ Error err)) ;;
            emit (EvHttpError "Error starting service" 500)
          else
            emit (EvLog ("INFO: created service for user " ++ UserID s)) ;;
            ce <- lastContainerID w ;;
            let (containerID, err) := ce : string * option error in
            if notNil err then
              emit (EvLog ("ERROR: getting container id " ++ Error err)) ;;
              emit (EvHttpError "Error getting container id" 500)
            else
              let s := setDbID s containerID in
              let serRes := mkServiceResponse "localhost" (Port (Db s)) containerID in
              let (jsonBody, err) := jsonMarshal w serRes in
              if notNil err then
                emit (EvLog ("ERROR: marshalling service response struct serviceResponse "
                               ++ Error err)) ;;
                emit (EvHttpError "Internal server error " 500)
              else
                updateSqliteDB w (projectDir w ++ "/" ++ UserID s) (UserID s) s ;;
                emit (EvResponseWrite jsonBody).

(** ** Reading a run *)

(** The outcome of one connection attempt of the scan. *)
Definition probe (w : World) (p : Z) : option error :=
  DialTimeout w "tcp" (target p) (3 * Second).

(** The two tests of the loop body of [portcheck]. *)
Definition isRefused (err : option error) : bool :=
  notNil err && strings.Contains (Error err) refused.

Definition isOtherError (err : option error) : bool :=
  notNil err && negb (strings.Contains (Error err) refused).

(** The addresses dialled during a run, in order. *)
Definition dialled (t : list event) : list string :=
  flat_map (fun e => match e with EvDial _ a => [a] | _ => [] end) t.

(** [n] consecutive candidates from [p] on. *)
Fixpoint candidates (n : nat) (p : Z) : list Z :=
  match n with
  | O => []
  | S n' => p :: candidates n' (p + 1)
  end.

(** The error of an exhausted scan. *)
Definition occupied : option error := Some "error all allocated ports are occupied".

(** Events that act on the host: a port probe, the file system, an external
    command, the metadata store. *)
Definition effectful (e : event) : bool :=
  match e with
  | EvLog _ | EvPrintln _ | EvHttpError _ _ | EvFprintf _
  | EvResponseWrite _ | EvReadAll => false
  | _ => true
  end.

Definition isDial (e : event) : bool :=
  match e with EvDial _ _ => true | _ => false end.

Definition dialEvent (p : Z) : event := EvDial "tcp" (target p).

Definition isHttpError (e : event) : bool :=
  match e with EvHttpError _ _ => true | _ => false end.

Definition quiet (t : list event) : bool :=
  forallb (fun e => negb (effectful e)) t.

(** The subject the handler compares the request with. *)
Definition subject (w : World) (req : Request) : string :=
  fst (validateToken w (Authorization req)).

(** What the handler does about the token before it reads the body. *)
Definition tokenEvents (w : World) (req : Request) : list event :=
  match snd (validateToken w (Authorization req)) with
  | Some e => [EvLog ("error validating token " ++ e);
               EvHttpError "error validating token" 500]
  | None => []
  end.

(** The port [portcheck] hands to the handler, and its error. *)
Definition allocated (w : World) : Z :=
  match result (portcheck w) with
  | Returned pe => fst pe
  | _ => 0
  end.

Definition allocationError (w : World) : option error :=
  match result (portcheck w) with
  | Returned pe => snd pe
  | _ => None
  end.

(** The request as the handler passes it on after the allocation. *)
Definition staged (w : World) (s : service) : service :=
  setArchitecture (setDbPort s (allocated w)) (architecture w).

Definition servicePath (w : World) (s : service) : string :=
  projectDir w ++ "/" ++ UserID s ++ "/" ++ Name (Db s).

Definition queryArgv : list string := ["/bin/bash"; "-c"; "docker ps --last 1 -q"].

(** The persisting and answering end of the handler. *)
Definition persistAndAnswer (w : World) (s : service) (containerID body : string) : io unit :=
  updateSqliteDB w (projectDir w ++ "/" ++ UserID s) (UserID s)
    (setDbID (staged w s) containerID) ;;
  emit (EvResponseWrite body).

(** The run of a validated request up to the rendering. *)
Definition allocatedTrace (w : World) (req : Request) : list event :=
  (tokenEvents w req ++ [EvReadAll] ++ trace (portcheck w))%list.

(** The run of a validated request up to the container query, when the
    rendering and the launch succeed. *)
Definition launchedTrace (w : World) (req : Request) (s : service) : list event :=
  (allocatedTrace w req
     ++ trace (prepareService w (staged w s) (servicePath w s))
     ++ trace (startService w (staged w s) (servicePath w s))
     ++ [EvLog ("INFO: created service for user " ++ UserID s);
         EvCombinedOutput queryArgv])%list.

(** ** Sample worlds *)

Definition sampleService : service :=
  mkService 200 "u1" "" (mkDbCluster "pg1" "" "postgres" 0 9 6 "32MB" "200").

(** A host on which every step succeeds: nothing listens on the candidate
    ports, the container engine is installed, the store is writable. *)
Definition healthyWorld : World := {|
  projectDir := "/srv/spinup";
  architecture := "amd64";
  JWTToString := fun tok => if tok =? "token-u1" then ("u1", None)
                            else ("", Some "token is invalid");
  svcName := fun s => Name (Db s);
  svcTunnelSecret := fun _ => "";
  jsonUnmarshal := fun bytes s =>
    if bytes =? "body-u1-postgres" then (sampleService, None)
    else (s, Some "unexpected end of JSON input");
  jsonMarshal := fun r =>
    ("{HostName:" ++ HostName r ++ ",Port:" ++ itoa (ResponsePort r)
       ++ ",ContainerID:" ++ ContainerID r ++ "}", None);
  filepathJoin := fun a b => a ++ "/" ++ b;
  DialTimeout := fun _ addr _ => Some ("dial tcp " ++ addr ++ ": " ++ refused);
  osMkdirAll := fun _ _ => None;
  osCreate := fun _ => None;
  ParseFiles := fun _ =>
    ([Text "name: "; Field "UserID"; Text "-"; Field "Name";
      Text "; host port: "; Field "Port"], None);
  Run := fun _ => mkCmdResult "" "" None;
  CombinedOutput := fun _ => ("3f2a9c1b7d10" ++ newline, None);
  sqlOpen := fun _ _ => None;
  dbExec := fun _ => None;
  dbBegin := None;
  txPrepare := fun _ => None;
  stmtExec := fun _ _ _ => None;
  txCommit := None
|}.

(** The same host with other answers to the connection attempts. *)
Definition withDial (w : World) (dial : string -> string -> Z -> option error) : World :=
  mkWorld (projectDir w) (architecture w) (JWTToString w) (svcName w)
    (svcTunnelSecret w) (jsonUnmarshal w) (jsonMarshal w) (filepathJoin w)
    dial (osMkdirAll w) (osCreate w) (ParseFiles w) (Run w) (CombinedOutput w)
    (sqlOpen w) (dbExec w) (dbBegin w) (txPrepare w) (stmtExec w) (txCommit w).

(** The same host with another answer of the engine to the container query. *)
Definition withCombinedOutput (w : World) (out : list string -> string * option error) : World :=
  mkWorld (projectDir w) (architecture w) (JWTToString w) (svcName w)
    (svcTunnelSecret w) (jsonUnmarshal w) (jsonMarshal w) (filepathJoin w)
    (DialTimeout w) (osMkdirAll w) (osCreate w) (ParseFiles w) (Run w) out
    (sqlOpen w) (dbExec w) (dbBegin w) (txPrepare w) (stmtExec w) (txCommit w).

(** The same host with another decoder of request bodies. *)
Definition withUnmarshal (w : World)
  (dec : string -> service -> service * option error) : World :=
  mkWorld (projectDir w) (architecture w) (JWTToString w) (svcName w)
    (svcTunnelSecret w) dec (jsonMarshal w) (filepathJoin w)
    (DialTimeout w) (osMkdirAll w) (osCreate w) (ParseFiles w) (Run w)
    (CombinedOutput w) (sqlOpen w) (dbExec w) (dbBegin w) (txPrepare w)
    (stmtExec w) (txCommit w).

(** The same host with a store whose statements cannot be prepared. *)
Definition withTxPrepare (w : World) (prep : string -> option error) : World :=
  mkWorld (projectDir w) (architecture w) (JWTToString w) (svcName w)
    (svcTunnelSecret w) (jsonUnmarshal w) (jsonMarshal w) (filepathJoin w)
    (DialTimeout w) (osMkdirAll w) (osCreate w) (ParseFiles w) (Run w)
    (CombinedOutput w) (sqlOpen w) (dbExec w) (dbBegin w) prep (stmtExec w)
    (txCommit w).

(** Something listens on every candidate port. *)
Definition allListening : World := withDial healthyWorld (fun _ _ _ => None).

(** Something listens on 5432 and nothing on 5433. *)
Definition firstListening : World :=
  withDial healthyWorld
    (fun _ addr _ => if addr =? "localhost:5432" then None
                     else Some ("dial tcp " ++ addr ++ ": " ++ refused)).

(** The attempt on 5432 times out; nothing listens on the other ports. *)
Definition firstTimesOut : World :=
  withDial healthyWorld
    (fun _ addr _ => if addr =? "localhost:5432"
                     then Some "dial tcp 127.0.0.1:5432: i/o timeout"
                     else Some ("dial tcp " ++ addr ++ ": " ++ refused)).

(** The container query succeeds and prints nothing. *)
Definition noContainerListed : World :=
  withCombinedOutput healthyWorld (fun _ => ("", None)).

(** The container query fails. *)
Definition engineQueryFails : World :=
  withCombinedOutput healthyWorld
    (fun _ => ("Cannot connect to the Docker daemon", Some "exit status 1")).

(** The store refuses to prepare the insertion. *)
Definition storeCannotPrepare : World :=
  withTxPrepare healthyWorld (fun _ => Some "database is locked").

(** The request of [u1] for a postgres cluster, sent with the token of [u1]. *)
Definition u1Request : Request :=
  mkRequest "POST" "Bearer token-u1" ("body-u1-postgres", None).

(** Something listens on 5432, the attempt on 5433 is reset, nothing listens
    on 5434. *)
Definition secondResets : World :=
  withDial healthyWorld
    (fun _ addr _ =>
       if addr =? "localhost:5432" then None
       else if addr =? "localhost:5433"
            then Some "read tcp 127.0.0.1:5433: connection reset by peer"
            else Some ("dial tcp " ++ addr ++ ": " ++ refused)).

(** A request of user [u2] sent with the token of [u1]. *)
Definition u2Service : service := mkService 200 "u2" "" (Db sampleService).

Definition healthyWorldU2 : World :=
  withUnmarshal healthyWorld
    (fun bytes s => if bytes =? "body-u2-postgres" then (u2Service, None)
                    else jsonUnmarshal healthyWorld bytes s).

Definition u2RequestAsU1 : Request :=
  mkRequest "POST" "Bearer token-u1" ("body-u2-postgres", None).

(** A request of [u1] for an engine other than postgres. *)
Definition mysqlService : service :=
  mkService 200 "u1" "" (mkDbCluster "my1" "" "mysql" 0 8 0 "32MB" "200").

Definition healthyWorldMysql : World :=
  withUnmarshal healthyWorld
    (fun bytes s => if bytes =? "body-u1-mysql" then (mysqlService, None)
                    else jsonUnmarshal healthyWorld bytes s).

Definition mysqlRequest : Request :=
  mkRequest "POST" "Bearer token-u1" ("body-u1-mysql", None).

(** A request without a token and with an empty [userid]. *)
Definition anonymousService : service :=
  mkService 200 "" "" (mkDbCluster "pg1" "" "postgres" 0 9 6 "32MB" "200").

Definition healthyWorldAnonymous : World :=
  withUnmarshal healthyWorld
    (fun bytes s => if bytes =? "body-anonymous-postgres" then (anonymousService, None)
                    else jsonUnmarshal healthyWorld bytes s).

Definition anonymousRequest : Request :=
  mkRequest "POST" "" ("body-anonymous-postgres", None).

Definition anonymousAnswer : string :=
  "{HostName:localhost,Port:5432,ContainerID:3f2a9c1b7d10" ++ newline ++ "}".

(** Where the compose document of [u1Request] is written, and the
    identifier the engine of [healthyWorld] prints. *)
Definition composePath : string := "/srv/spinup/u1/pg1/docker-compose.yml".

Definition containerID1 : string := "3f2a9c1b7d10" ++ newline.

(** A request whose body cannot be read, and one whose body is not JSON. *)
Definition unreadableRequest : Request :=
  mkRequest "POST" "Bearer token-u1" ("", Some "unexpected EOF").

Definition malformedRequest : Request :=
  mkRequest "POST" "Bearer token-u1" ("{name:", None).

(** ** Reading a run of the launcher *)

(** The external commands run, in order. *)
Definition commands (t : list event) : list (list string) :=
  flat_map (fun e => match e with EvRun argv => [argv] | _ => [] end) t.

Definition whichCompose : list string := ["which"; "docker-compose"].
Definition whichDocker : list string := ["which"; "docker"].

Definition composeConfig (path : string) : list string :=
  ["docker-compose"; "-f"; path ++ "/docker-compose.yml"; "config"].

Definition composeUp (path : string) : list string :=
  ["docker-compose"; "-f"; path ++ "/docker-compose.yml"; "up"; "-d"].

(** The four commands of a launch. *)
Definition launchCommands (path : string) : list (list string) :=
  [whichCompose; whichDocker; composeConfig path; composeUp path].

(** ** Reading the bearer token *)

(** The answer of the token verifier as [validateToken] hands it on. *)
Definition verified (w : World) (reqToken : string) : string * option error :=
  if notNil (snd (JWTToString w reqToken)) then ("", snd (JWTToString w reqToken))
  else (fst (JWTToString w reqToken), None).

(** A list of commands run one after the other until one fails. *)
Fixpoint untilFailure (w : World) (cmds : list (list string)) : list (list string) :=
  match cmds with
  | [] => []
  | c :: cmds' =>
      c :: (if notNil (exitErr (Run w c)) then [] else untilFailure w cmds')
  end.

Definition allSucceed (w : World) (cmds : list (list string)) : bool :=
  forallb (fun c => negb (notNil (exitErr (Run w c)))) cmds.

(** ** Reading a run of the renderer *)

(** The variables the compose template can use. *)
Definition composeFields : list string :=
  ["Path"; "UserID"; "Architecture"; "Name"; "Port"; "Secret"].

(** Where the compose document of a service directory is written. *)
Definition composeFile (w : World) (absolutepath : string) : string :=
  filepathJoin w absolutepath "docker-compose.yml".

(** What the template execution writes for a request, and its error. *)
Definition composeBytes (w : World) (s : service) : string :=
  fst (Execute (fst (ParseFiles w composeTemplate)) (composeData w s)).

Definition composeError (w : World) (s : service) : option error :=
  snd (Execute (fst (ParseFiles w composeTemplate)) (composeData w s)).

(** The mode [0755] of the service directory. *)
Definition dirMode : Z := 493.

(** The store file of [updateSqliteDB]. *)
Definition storeFile (path dbName : string) : string := path ++ "/" ++ dbName ++ ".db".

(** Whether one of the store calls that end the process fails. *)
Definition storeFatal (w : World) (path dbName : string) (data : service) : bool :=
  notNil (sqlOpen w "sqlite3" (storeFile path dbName))
  || notNil (dbBegin w)
  || notNil (txPrepare w insertStmt)
  || notNil (stmtExec w (ID (Db data)) (Name (Db data)) (Port (Db data))).

(** The same host with a file system that refuses to create files. *)
Definition withOsCreate (w : World) (create : string -> option error) : World :=
  mkWorld (projectDir w) (architecture w) (JWTToString w) (svcName w)
    (svcTunnelSecret w) (jsonUnmarshal w) (jsonMarshal w) (filepathJoin w)
    (DialTimeout w) (osMkdirAll w) create (ParseFiles w) (Run w)
    (CombinedOutput w) (sqlOpen w) (dbExec w) (dbBegin w) (txPrepare w)
    (stmtExec w) (txCommit w).

(** The same host with other template files. *)
Definition withParseFiles (w : World) (parse : string -> template * option error) : World :=
  mkWorld (projectDir w) (architecture w) (JWTToString w) (svcName w)
    (svcTunnelSecret w) (jsonUnmarshal w) (jsonMarshal w) (filepathJoin w)
    (DialTimeout w) (osMkdirAll w) (osCreate w) parse (Run w)
    (CombinedOutput w) (sqlOpen w) (dbExec w) (dbBegin w) (txPrepare w)
    (stmtExec w) (txCommit w).

(** The same host with a store that answers the table creation and the
    commit otherwise. *)
Definition withDbExecCommit (w : World) (exec : string -> option error)
  (commit : option error) : World :=
  mkWorld (projectDir w) (architecture w) (JWTToString w) (svcName w)
    (svcTunnelSecret w) (jsonUnmarshal w) (jsonMarshal w) (filepathJoin w)
    (DialTimeout w) (osMkdirAll w) (osCreate w) (ParseFiles w) (Run w)
    (CombinedOutput w) (sqlOpen w) exec (dbBegin w) (txPrepare w)
    (stmtExec w) commit.

Definition readOnlyDisk : World :=
  withOsCreate healthyWorld (fun _ => Some "open docker-compose.yml: permission denied").

(** A compose template that asks for a variable the renderer does not pass. *)
Definition passwordTemplateHead : template :=
  [Text "user: "; Field "UserID"; Text " password: "].

Definition passwordTemplateTail : template :=
  [Text " port: "; Field "Port"].

Definition passwordTemplateWorld : World :=
  withParseFiles healthyWorld
    (fun _ => ((passwordTemplateHead ++ Field "Password" :: passwordTemplateTail)%list,
               None)).

(** A store whose table creation and commit fail. *)
Definition grumpyStore : World :=
  withDbExecCommit healthyWorld (fun _ => Some "disk I/O error")
    (Some "cannot commit - no transaction is active").

Definition recordedService : service :=
  setDbID (setDbPort sampleService 5432) "3f2a9c1b7d10".

(** ** Reading the end of a run *)

(** The two events that close a provisioning: the insertion of the cluster
    record and the answer to the caller. *)
Definition finalStep (e : event) : bool :=
  match e with
  | EvStmtExec _ _ _ | EvResponseWrite _ => true
  | _ => false
  end.

(** The directory of the store of a tenant. *)
Definition tenantDir (w : World) (s : service) : string :=
  projectDir w ++ "/" ++ UserID s.

(** The request as it is recorded, with the identifier of its container. *)
Definition recorded (w : World) (s : service) (containerID : string) : service :=
  setDbID (staged w s) containerID.

(** A request that passed every step of the handler before the store: it is
    a POST whose body decodes to [s], of the subject of the token, for
    postgres; rendering and launch succeeded; the engine printed [out] for
    the container query and the answer encodes as [body]. *)
Definition reachesStore (w : World) (req : Request) (s : service)
  (out body : string) : Prop :=
  Method req = "POST"
  /\ (exists bytes, Body req = (bytes, None)
                    /\ jsonUnmarshal w bytes zeroService = (s, None))
  /\ UserID s = subject w req
  /\ Type_ (Db s) = "postgres"
  /\ result (prepareService w (staged w s) (servicePath w s)) = Returned None
  /\ result (startService w (staged w s) (servicePath w s)) = Returned None
  /\ CombinedOutput w queryArgv = (out, None)
  /\ jsonMarshal w (mkServiceResponse "localhost" (allocated w) out) = (body, None).

(** A request that passed the validation of the handler. *)
Definition validated (w : World) (req : Request) (s : service) : Prop :=
  Method req = "POST"
  /\ (exists bytes, Body req = (bytes, None)
                    /\ jsonUnmarshal w bytes zeroService = (s, None))
  /\ UserID s = subject w req
  /\ Type_ (Db s) = "postgres".

(** A request whose body cannot be read or decoded. *)
Definition badBody (w : World) (req : Request) : Prop :=
  exists bytes e,
    Body req = (bytes, Some e)
    \/ (Body req = (bytes, None)
        /\ exists s, jsonUnmarshal w bytes zeroService = (s, Some e)).

(** ** decodeJSONBody (helpers.go) *)

Module Helpers.

(** [strings.HasPrefix] and [strings.TrimPrefix]. *)
Definition HasPrefix (s prefix_ : string) : bool := prefix prefix_ s.

Fixpoint dropChars (n : nat) (s : string) : string :=
  match n, s with
  | S n', String _ s' => dropChars n' s'
  | _, _ => s
  end.

Definition TrimPrefix (s prefix_ : string) : string :=
  if HasPrefix s prefix_ then dropChars (String.length prefix_) s else s.

(** The errors of a [json.Decoder], as the function tells them apart: a
    [*json.SyntaxError], [io.ErrUnexpectedEOF], a
    [*json.UnmarshalTypeError], [io.EOF], and any other error, known by its
    text. *)
Inductive decodeErr : Type :=
| SyntaxError (text : string) (Offset : Z)
| ErrUnexpectedEOF
| UnmarshalTypeError (text : string) (FieldName : string) (Offset : Z)
| EOF
| OtherError (text : string).

Definition decodeErrText (err : decodeErr) : string :=
  match err with
  | SyntaxError text _ => text
  | ErrUnexpectedEOF => "unexpected EOF"
  | UnmarshalTypeError text _ _ => text
  | EOF => "EOF"
  | OtherError text => text
  end.

Definition isEOF (err : decodeErr) : bool :=
  match err with EOF => true | _ => false end.

Record malformedRequest : Type := mkMalformedRequest {
  status : Z;
  msg : string
}.

(** The [error] the function returns: a [*malformedRequest] or the error of
    the decoder as it is. *)
Inductive bodyError : Type :=
| Malformed (mr : malformedRequest)
| Undecoded (err : decodeErr).

Definition StatusBadRequest : Z := 400.
Definition StatusRequestEntityTooLarge : Z := 413.
Definition StatusUnsupportedMediaType : Z := 415.

(** [decodeJSONBody]: [contentType] is the [Content-Type] header of the
    request, [mediaType] the library's parse of a header value, [quote] the
    [%q] of a string, [first] and [second] the results of the two calls of
    [dec.Decode] on the body. *)
Definition decodeJSONBody (quote mediaType : string -> string)
  (contentType : string) (first second : option decodeErr) : option bodyError :=
  if negb (contentType =? "") && negb (mediaType contentType =? "application/json")
  then
    Some (Malformed (mkMalformedRequest StatusUnsupportedMediaType
                       "Content-Type header is not application/json"))
  else
    match first with
    | Some err =>
        match err with
        | SyntaxError _ Offset =>
            Some (Malformed (mkMalformedRequest StatusBadRequest
                    ("Request body contains badly-formed JSON (at position "
                       ++ itoa Offset ++ ")")))
        | ErrUnexpectedEOF =>
            Some (Malformed (mkMalformedRequest StatusBadRequest
                    "Request body contains badly-formed JSON"))
        | UnmarshalTypeError _ FieldName Offset =>
            Some (Malformed (mkMalformedRequest StatusBadRequest
                    ("Request body contains an invalid value for the "
                       ++ quote FieldName ++ " field (at position "
                       ++ itoa Offset ++ ")")))
        | _ =>
            if HasPrefix (decodeErrText err) "json: unknown field " then
              let fieldName := TrimPrefix (decodeErrText err) "json: unknown field " in
              Some (Malformed (mkMalformedRequest StatusBadRequest
                      ("Request body contains unknown field " ++ fieldName)))
            else if isEOF err then
              Some (Malformed (mkMalformedRequest StatusBadRequest
                      "Request body must not be empty"))
            else if decodeErrText err =? "http: request body too large" then
              Some (Malformed (mkMalformedRequest StatusRequestEntityTooLarge
                      "Request body must not be larger than 1MB"))
            else Some (Undecoded err)
        end
    | None =>
        match second with
        | Some EOF => None
        | _ =>
            Some (Malformed (mkMalformedRequest StatusBadRequest
                    "Request body must only contain a single JSON object"))
        end
    end.

(** A request is refused for its content type when the header is present
    and its media type is not JSON. *)
Definition wrongContentType (mediaType : string -> string) (contentType : string) : bool :=
  negb (contentType =? "") && negb (mediaType contentType =? "application/json").

End Helpers.

(** A media type parser: the text before the parameters, in lower case
    letters already. *)
Fixpoint beforeSemicolon (s : string) : string :=
  match s with
  | EmptyString => ""
  | String c s' => if Ascii.eqb c ";" then "" else String c (beforeSemicolon s')
  end.

Definition goQuote (s : string) : string := dquote ++ s ++ dquote.

(** ** randSeq (helpers.go) *)

Definition letters : string := "abcdefghijklmnopqrstuvwxyzABCDEFGHIJKLMNOPQRSTUVWXYZ".

(** [letters[idx]]; [None] stands for the index being out of range. *)
Definition letterAt (idx : Z) : option ascii :=
  if (idx <? 0)%Z then None else String.get (Z.to_nat idx) letters.

(** The loop of [randSeq] over the [count] cells from the [i]-th on.
    [Intn i n] is what the [i]-th call of [rand.Intn] returns for the bound
    [n]. *)
Fixpoint fillRunes (Intn : nat -> Z -> Z) (count i : nat) : outcome string :=
  match count with
  | O => Returned ""
  | S count' =>
      match letterAt (Intn i (Z.of_nat (String.length letters))) with
      | None => Panicked "index out of range"
      | Some r =>
          match fillRunes Intn count' (S i) with
          | Returned b => Returned (String r b)
          | Exited c => Exited c
          | Panicked e => Panicked e
          end
      end
  end.

Definition randSeq (Intn : nat -> Z -> Z) (n : Z) : outcome string :=
  if (n <? 0)%Z then Panicked "makeslice: len out of range"
  else fillRunes Intn (Z.to_nat n) 0.

(** An ASCII letter. *)
Definition isLetter (c : ascii) : bool :=
  let k := nat_of_ascii c in
  ((97 <=? k) && (k <=? 122) || (65 <=? k) && (k <=? 90))%nat.

Fixpoint allLetters (s : string) : bool :=
  match s with
  | EmptyString => true
  | String c s' => isLetter c && allLetters s'
  end.

(** A source of numbers that walks through the bound. *)
Definition countingIntn (i : nat) (n : Z) : Z := (Z.of_nat i * 7) mod n.

(** ** init *)

(** What [init] reads: the environment, the client constructor, the key
    files and their parsers (the client and the keys themselves are not
    modelled, only whether they were obtained), and [fatal], a function of
    the package that is not among the sources. *)
Record Startup : Type := mkStartup {
  LookupEnv : string -> option string;
  NewWithAPIToken : string -> option error;
  ReadFile : string -> string * option error;
  ParseRSAPrivateKeyFromPEM : string -> option error;
  ParseRSAPublicKeyFromPEM : string -> option error;
  fatal : option error -> io unit
}.

(** The package variables [init] sets from the environment. *)
Record Config : Type := mkConfig {
  cfgProjectDir : string;
  cfgArchitecture : string;
  cfgAuthToken : string;
  cfgZoneID : string
}.

Definition init (st : Startup) : io Config :=
  match LookupEnv st "SPINUP_PROJECT_DIR" with
  | None => logFatal "FATAL: getting environment variable SPINUP_PROJECT_DIR"
  | Some projectDir =>
  match LookupEnv st "ARCHITECTURE" with
  | None => logFatal "FATAL: getting environment variable ARCHITECTURE"
  | Some architecture =>
  match LookupEnv st "CF_AUTHORIZATION_TOKEN" with
  | None => logFatal "FATAL: getting environment variable CF_AUTHORIZATION_TOKEN"
  | Some authToken =>
  match LookupEnv st "CF_ZONE_ID" with
  | None => logFatal "FATAL: getting environment variable CF_ZONE_ID"
  | Some zoneID =>
      let err := NewWithAPIToken st authToken in
      if notNil err then
        logFatal ("FATAL: creating new cloudflare client " ++ Error err)
      else
        let (signBytes, err) := ReadFile st (projectDir ++ "/app.rsa") in
        fatal st err ;;
        fatal st (ParseRSAPrivateKeyFromPEM st signBytes) ;;
        let (verifyBytes, err) := ReadFile st (projectDir ++ "/app.rsa.pub") in
        fatal st err ;;
        fatal st (ParseRSAPublicKeyFromPEM st verifyBytes) ;;
        emit (EvLog "INFO: initial validations successful") ;;
        ret (mkConfig projectDir architecture authToken zoneID)
  end end end end.

(** The variables [init] requires, in the order it looks them up. *)
Definition requiredEnv : list string :=
  ["SPINUP_PROJECT_DIR"; "ARCHITECTURE"; "CF_AUTHORIZATION_TOKEN"; "CF_ZONE_ID"].

Fixpoint firstMissing (env : string -> option string) (names : list string) : option string :=
  match names with
  | [] => None
  | name :: names' =>
      match env name with
      | None => Some name
      | Some _ => firstMissing env names'
      end
  end.

(** The environment the README sets up before [go run main.go]. *)
Definition readmeEnv (name : string) : option string :=
  if name =? "CF_API_EMAIL" then Some "yourcfemail"
  else if name =? "CF_API_KEY" then Some "yourcfapikey"
  else if name =? "CF_ACCOUNT_ID" then Some "yourcfaccountid"
  else if name =? "CF_ZONE_ID" then Some "yourcfzonid"
  else if name =? "SPINUP_PROJECT_DIR" then Some "/Your/Project/Dir"
  else if name =? "ARCHITECTURE" then Some "architecture"
  else None.

(** A [fatal] that logs and exits on an error. *)
Definition fatalExits (err : option error) : io unit :=
  if notNil err then logFatal (Error err) else ret tt.

Definition readmeStartup : Startup :=
  mkStartup readmeEnv (fun _ => None) (fun _ => ("", None)) (fun _ => None)
    (fun _ => None) fatalExits.

(** An environment with the four variables, one of them empty. *)
Definition fullEnv (name : string) : option string :=
  if name =? "CF_AUTHORIZATION_TOKEN" then Some "cf-token"
  else if name =? "CF_ZONE_ID" then Some ""
  else readmeEnv name.

Definition fullStartup : Startup :=
  mkStartup fullEnv (fun _ => None) (fun _ => ("", None)) (fun _ => None)
    (fun _ => None) fatalExits.

(** ** createDockerfile and createConfigfile (helpers.go)

    Both hand the request itself to the template; [serviceFields] gives the
    fields of the [Service] struct, whose declaration is not among the
    sources. *)
Definition createDockerfile (w : World) (serviceFields : service -> list (string * value))
  (absolutepath : string) (s : service) : io (option error) :=
  let outputPath := filepathJoin w absolutepath "Dockerfile" in
  emit (EvCreate outputPath) ;;
  if notNil (osCreate w outputPath) then panic (Error (osCreate w outputPath))
  else
    (* defer f.Close() *)
    err <- (emit (EvParseFiles "Dockerfile-template") ;;
            let (templ, err) := ParseFiles w "Dockerfile-template" in
            if notNil err then
              ret (Some ("ERROR: parsing template file " ++ Error err))
            else
              let (bytes, err) := Execute templ (serviceFields s) in
              emit (EvFileWrite outputPath bytes) ;;
              if notNil err then
                ret (Some ("ERROR: executing template file " ++ Error err))
              else ret None) ;;
    emit (EvFileClose outputPath) ;;
    ret err.

Definition createConfigfile (w : World) (serviceFields : service -> list (string * value))
  (absolutepath : string) (s : service) : io (option error) :=
  let outputPath := filepathJoin w absolutepath "config.yaml" in
  emit (EvCreate outputPath) ;;
  if notNil (osCreate w outputPath) then panic (Error (osCreate w outputPath))
  else
    (* defer f.Close() *)
    err <- (emit (EvParseFiles "config-template.yaml") ;;
            let (templ, err) := ParseFiles w "config-template.yaml" in
            if notNil err then
              ret (Some ("ERROR: parsing template file " ++ Error err))
            else
              let (bytes, err) := Execute templ (serviceFields s) in
              emit (EvFileWrite outputPath bytes) ;;
              if notNil err then
                ret (Some ("ERROR: executing template file " ++ Error err))
              else ret None) ;;
    emit (EvFileClose outputPath) ;;
    ret err.

(** What the execution of a renderer's template sends to its file, and its
    error.  An [EvFileWrite p bytes] of a trace stands for that output as a
    whole, in however many writes the library makes (none when [bytes] is
    empty). *)
Definition renderedBytes (w : World) (serviceFields : service -> list (string * value))
  (template_ : string) (s : service) : string :=
  fst (Execute (fst (ParseFiles w template_)) (serviceFields s)).

Definition renderError (w : World) (serviceFields : service -> list (string * value))
  (template_ : string) (s : service) : option error :=
  snd (Execute (fst (ParseFiles w template_)) (serviceFields s)).

(** The run of a renderer whose file [file] could be created: the file is
    created, then the template read; unless the template cannot be parsed,
    the output of the execution goes to the file; the file is closed
    last. *)
Definition renderRun (w : World) (serviceFields : service -> list (string * value))
  (file template_ : string) (s : service) : list event :=
  (EvCreate file :: EvParseFiles template_
     :: (if notNil (snd (ParseFiles w template_)) then []
         else [EvFileWrite file (renderedBytes w serviceFields template_ s)])
     ++ [EvFileClose file])%list.

(** A [Service] seen through three fields of [service]. *)
Definition sampleFields (s : service) : list (string * value) :=
  [("UserID", VString (UserID s)); ("Name", VString (Name (Db s)));
   ("Port", VUint (Port (Db s)))].

(** ** The response as the client receives it

    Modelled on net/http, which is not part of the repository: the first
    write to the [ResponseWriter] sends the header, with status 200 unless
    [WriteHeader] was called before; [fmt.Fprintf(w, ...)] and [w.Write] are
    such writes; [http.Error] calls [WriteHeader(code)], which has no effect
    once the header is sent, and then writes the message and a newline. *)
Fixpoint responseStatus (t : list event) : option Z :=
  match t with
  | [] => None
  | EvFprintf _ :: _ => Some 200
  | EvResponseWrite _ :: _ => Some 200
  | EvHttpError _ code :: _ => Some code
  | _ :: t' => responseStatus t'
  end.

Fixpoint responseBody (t : list event) : string :=
  match t with
  | [] => ""
  | EvFprintf text :: t' => text ++ responseBody t'
  | EvResponseWrite body :: t' => body ++ responseBody t'
  | EvHttpError text _ :: t' => text ++ newline ++ responseBody t'
  | _ :: t' => responseBody t'
  end.

Arguments portcheck : simpl never.
Arguments validateToken : simpl never.
Arguments prepareService : simpl never.
Arguments startService : simpl never.
Arguments lastContainerID : simpl never.
Arguments updateSqliteDB : simpl never.

(** ** The io monad *)

Lemma bind_emit {B} (e : event) (k : unit -> io B) :
  bind (emit e) k = (e :: trace (k tt), result (k tt)).
Proof. reflexivity. Qed.

Lemma bind_returned {A B} (t : list event) (a : A) (k : A -> io B) :
  bind (t, Returned a) k = ((t ++ trace (k a))%list, result (k a)).
Proof. reflexivity. Qed.

Lemma io_eta {A} (m : io A) : (trace m, result m) = m.
Proof. destruct m; reflexivity. Qed.

(** ** The port scan *)

Section PortScan.

Variable w : World.

Lemma portscan_S (n : nat) (p : Z) :
  portscan w (S n) p =
    (emit (dialEvent p) ;;
     if isOtherError (probe w p) then
       emit (EvLog ("INFO: error on port scanning " ++ itoa p ++ " "
                      ++ Error (probe w p))) ;;
       ret (0, probe w p)
     else if isRefused (probe w p) then
       emit (EvLog ("INFO: port " ++ itoa p ++ " is unused")) ;;
       ret (p, None)
     else portscan w n (p + 1)).
Proof. reflexivity. Qed.

Lemma probe_cases (p : Z) :
  (probe w p = None /\ isOtherError (probe w p) = false
     /\ isRefused (probe w p) = false)
  \/ (isRefused (probe w p) = true /\ isOtherError (probe w p) = false)
  \/ (isOtherError (probe w p) = true /\ isRefused (probe w p) = false).
Proof.
  unfold isRefused, isOtherError.
  destruct (probe w p) as [e|]; simpl; [|now left].
  destruct (strings.Contains e refused); simpl; [right; left|right; right]; auto.
Qed.

(** A listener answers: the loop moves to the next candidate. *)
Lemma portscan_connected (n : nat) (p : Z) :
  probe w p = None ->
  portscan w (S n) p =
    (dialEvent p :: trace (portscan w n (p + 1)), result (portscan w n (p + 1))).
Proof.
  intros H. rewrite portscan_S, H. simpl. apply bind_emit.
Qed.

Lemma portscan_refused (n : nat) (p : Z) :
  isRefused (probe w p) = true ->
  portscan w (S n) p =
    ([dialEvent p; EvLog ("INFO: port " ++ itoa p ++ " is unused")],
     Returned (p, None)).
Proof.
  intros H. rewrite portscan_S.
  destruct (probe_cases p) as [[_ [_ H1]]|[[_ H1]|[_ H1]]]; try congruence.
  rewrite H1, H. reflexivity.
Qed.

Lemma portscan_other_error (n : nat) (p : Z) :
  isOtherError (probe w p) = true ->
  portscan w (S n) p =
    ([dialEvent p;
      EvLog ("INFO: error on port scanning " ++ itoa p ++ " " ++ Error (probe w p))],
     Returned (0, probe w p)).
Proof.
  intros H. rewrite portscan_S, H. reflexivity.
Qed.

(** While listeners answer, the scan walks up the candidates. *)
Lemma portscan_all_connected (k : nat) : forall (n : nat) (p : Z),
  (forall q, p <= q < p + Z.of_nat k -> probe w q = None) ->
  portscan w (k + n) p =
    ((map dialEvent (candidates k p) ++ trace (portscan w n (p + Z.of_nat k)))%list,
     result (portscan w n (p + Z.of_nat k))).
Proof.
  induction k as [|k IH]; intros n p H.
  - simpl. rewrite Z.add_0_r. symmetry. apply io_eta.
  - change (S k + n)%nat with (S (k + n)).
    rewrite portscan_connected by (apply H; lia).
    rewrite IH by (intros q Hq; apply H; lia).
    replace (p + 1 + Z.of_nat k) with (p + Z.of_nat (S k)) by lia.
    reflexivity.
Qed.

Lemma dialled_app (t1 t2 : list event) :
  dialled (t1 ++ t2) = (dialled t1 ++ dialled t2)%list.
Proof. apply flat_map_app. Qed.

Lemma dialled_cons_dial (p : Z) (t : list event) :
  dialled (dialEvent p :: t) = target p :: dialled t.
Proof. reflexivity. Qed.

Lemma dialled_dialEvents (l : list Z) :
  dialled (map dialEvent l) = map target l.
Proof.
  induction l as [|p l IH]; [reflexivity|].
  cbn [map]. now rewrite dialled_cons_dial, IH.
Qed.

(** The candidates are dialled in ascending order from the first one,
    without a gap. *)
Lemma portscan_dialled (n : nat) : forall p,
  exists k, (k <= n)%nat /\
    dialled (trace (portscan w n p)) = map target (candidates k p).
Proof.
  induction n as [|n IH]; intros p.
  - exists 0%nat. split; [lia|reflexivity].
  - destruct (probe_cases p) as [[H _]|[[H _]|[H _]]].
    + rewrite portscan_connected by exact H.
      destruct (IH (p + 1)) as [k [Hk E]].
      exists (S k). split; [lia|].
      cbn [trace fst candidates map]. now rewrite dialled_cons_dial, <- E.
    + rewrite portscan_refused by exact H.
      exists 1%nat. split; [lia|reflexivity].
    + rewrite portscan_other_error by exact H.
      exists 1%nat. split; [lia|reflexivity].
Qed.

(** If a candidate refuses and no candidate below it fails otherwise, the
    scan returns the lowest candidate that refuses. *)
Lemma portscan_lowest_refused (n : nat) : forall (p0 : Z) (j : nat),
  (j < n)%nat ->
  isRefused (probe w (p0 + Z.of_nat j)) = true ->
  (forall q, p0 <= q < p0 + Z.of_nat j -> isOtherError (probe w q) = false) ->
  exists m, p0 <= m <= p0 + Z.of_nat j
    /\ result (portscan w n p0) = Returned (m, None)
    /\ isRefused (probe w m) = true
    /\ forall q, p0 <= q < m -> isRefused (probe w q) = false.
Proof.
  induction n as [|n IH]; intros p0 j Hj Hr Ho; [lia|].
  destruct (probe_cases p0) as [[H [_ Hn]]|[[H _]|[H Hn]]].
  - destruct j as [|j].
    + rewrite Z.add_0_r in Hr. congruence.
    + rewrite portscan_connected by exact H.
      destruct (IH (p0 + 1) j) as [m [Hm [Hres [Hrm Hlow]]]].
      * lia.
      * replace (p0 + 1 + Z.of_nat j) with (p0 + Z.of_nat (S j)) by lia. exact Hr.
      * intros q Hq. apply Ho. lia.
      * exists m. repeat split; try lia; auto.
        intros q Hq. destruct (Z.eq_dec q p0) as [->|Hne]; [exact Hn|].
        apply Hlow. lia.
  - exists p0. rewrite portscan_refused by exact H.
    repeat split; try lia; auto.
  - destruct j as [|j].
    + rewrite Z.add_0_r in Hr. congruence.
    + rewrite Ho in H by lia. discriminate.
Qed.

End PortScan.

Lemma portcheck_eq (w : World) : portcheck w = portscan w 8 5432.
Proof. reflexivity. Qed.

Lemma portscan_first_dial (w : World) (n : nat) (p : Z) :
  exists t, trace (portscan w (S n) p) = dialEvent p :: t.
Proof. rewrite portscan_S, bind_emit. eexists. reflexivity. Qed.

Lemma portscan_none_refused (w : World) (n : nat) : forall p,
  (forall q, p <= q < p + Z.of_nat n -> isRefused (probe w q) = false) ->
  exists e, result (portscan w n p) = Returned (0, Some e).
Proof.
  induction n as [|n IH]; intros p H.
  - eexists. reflexivity.
  - destruct (probe_cases w p) as [[Hc _]|[[Hr _]|[Ho _]]].
    + rewrite portscan_connected by exact Hc.
      apply IH. intros q Hq. apply H. lia.
    + rewrite H in Hr by lia. discriminate.
    + rewrite portscan_other_error by exact Ho.
      unfold isOtherError in Ho. destruct (probe w p) as [e|]; [|discriminate].
      exists e. reflexivity.
Qed.

(** ** Claims on the port allocator *)

(** C5, as stated, fails: on a host where the attempt on 5432 times out (an
    outcome other than an active refusal), the scan does not go on to 5433;
    it stops there and returns port 0 with the time-out error. *)
Lemma portcheck_stops_on_timeout :
  isRefused (probe firstTimesOut 5432) = false
  /\ result (portcheck firstTimesOut)
     = Returned (0, Some "dial tcp 127.0.0.1:5432: i/o timeout")
  /\ dialled (trace (portcheck firstTimesOut)) = ["localhost:5432"].
Proof. repeat split; reflexivity. Qed.

(** C5, amended: take a candidate the scan reaches (every candidate below it
    accepted the connection).  If it accepts the connection too, the scan
    goes on and dials the next candidate; if it actively refuses, the scan
    ends with that port as the result; on any other connection error the
    scan ends at once with port 0 and that error.  In the last two cases no
    further candidate is dialled. *)
Theorem portcheck_candidate_outcome (w : World) (k : nat) :
  (k < 8)%nat ->
  (forall q, 5432 <= q < 5432 + Z.of_nat k -> probe w q = None) ->
  (probe w (5432 + Z.of_nat k) = None -> (k < 7)%nat ->
     In (target (5432 + Z.of_nat k + 1)) (dialled (trace (portcheck w))))
  /\ (isRefused (probe w (5432 + Z.of_nat k)) = true ->
        result (portcheck w) = Returned (5432 + Z.of_nat k, None)
        /\ dialled (trace (portcheck w)) = map target (candidates (S k) 5432))
  /\ (isOtherError (probe w (5432 + Z.of_nat k)) = true ->
        result (portcheck w) = Returned (0, probe w (5432 + Z.of_nat k))
        /\ dialled (trace (portcheck w)) = map target (candidates (S k) 5432)).
Proof.
  intros Hk Hlow. rewrite portcheck_eq.
  replace 8%nat with (k + S (7 - k))%nat by lia.
  rewrite (portscan_all_connected w k _ _ Hlow).
  assert (Hcand : map target (candidates (S k) 5432)
                  = (map target (candidates k 5432)
                       ++ [target (5432 + Z.of_nat k)])%list).
  { clear. generalize 5432. induction k as [|k IH]; intros p.
    - simpl. now rewrite Z.add_0_r.
    - change (candidates (S (S k)) p) with (p :: candidates (S k) (p + 1)).
      cbn [map]. rewrite IH. cbn [candidates map app].
      now replace (p + 1 + Z.of_nat k) with (p + Z.of_nat (S k)) by lia. }
  cbn [trace result fst snd]. repeat split.
  - intros Hc Hk7. rewrite portscan_connected by exact Hc.
    replace (7 - k)%nat with (S (6 - k)) by lia.
    destruct (portscan_first_dial w (6 - k) (5432 + Z.of_nat k + 1)) as [t Ht].
    rewrite Ht. cbn [trace fst]. rewrite dialled_app, !dialled_cons_dial.
    apply in_or_app. right. right. left. reflexivity.
  - rewrite portscan_refused by assumption. reflexivity.
  - rewrite portscan_refused by assumption.
    cbn [fst]. rewrite dialled_app, dialled_dialEvents, Hcand. reflexivity.
  - rewrite portscan_other_error by assumption. reflexivity.
  - rewrite portscan_other_error by assumption.
    cbn [fst]. rewrite dialled_app, dialled_dialEvents, Hcand. reflexivity.
Qed.

Lemma portcheck_candidate_outcome_witness :
  result (portcheck secondResets) = Returned (0, probe secondResets 5433)
  /\ dialled (trace (portcheck secondResets)) = map target (candidates 2 5432).
Proof.
  refine (proj2 (proj2 (portcheck_candidate_outcome secondResets 1 _ _)) _).
  - lia.
  - intros q Hq. assert (q = 5432) as -> by lia. reflexivity.
  - reflexivity.
Defined.

(** C6, as stated, fails: on a host where 5432 has a listener, the attempt
    on 5433 is reset and 5434 actively refuses, some candidate refuses (5434
    is the lowest that does) and the allocator does not return it: it fails
    with the error met on 5433. *)
Lemma portcheck_misses_refusing_candidate :
  isRefused (probe secondResets 5434) = true
  /\ isRefused (probe secondResets 5432) = false
  /\ isRefused (probe secondResets 5433) = false
  /\ result (portcheck secondResets)
     = Returned (0, Some "read tcp 127.0.0.1:5433: connection reset by peer")
  /\ result (portcheck secondResets) <> Returned (5434, None).
Proof. repeat split; try reflexivity. discriminate. Qed.

(** C6, amended: the allocator dials the candidates 5432, 5433, ... in
    ascending order without a gap, eight at most.  If some candidate
    actively refuses and no candidate below it fails with another
    connection error, the allocator returns the lowest candidate that
    refuses.  If every candidate accepts the connection, all eight are
    dialled and the allocator fails with the error "all allocated ports are
    occupied"; and whenever no candidate refuses, it fails (port 0 with an
    error). *)
Theorem portcheck_lowest_refused (w : World) :
  (exists k, (k <= 8)%nat
     /\ dialled (trace (portcheck w)) = map target (candidates k 5432))
  /\ (forall p, 5432 <= p < 5440 ->
        isRefused (probe w p) = true ->
        (forall q, 5432 <= q < p -> isOtherError (probe w q) = false) ->
        exists m, 5432 <= m <= p
          /\ result (portcheck w) = Returned (m, None)
          /\ isRefused (probe w m) = true
          /\ forall q, 5432 <= q < m -> isRefused (probe w q) = false)
  /\ ((forall q, 5432 <= q < 5440 -> probe w q = None) ->
        result (portcheck w) = Returned (0, occupied)
        /\ dialled (trace (portcheck w)) = map target (candidates 8 5432))
  /\ ((forall q, 5432 <= q < 5440 -> isRefused (probe w q) = false) ->
        exists e, result (portcheck w) = Returned (0, Some e)).
Proof.
  rewrite portcheck_eq. repeat split.
  - apply portscan_dialled.
  - intros p Hp Hr Ho.
    destruct (portscan_lowest_refused w 8 5432 (Z.to_nat (p - 5432)))
      as [m [Hm H]].
    + lia.
    + now replace (5432 + Z.of_nat (Z.to_nat (p - 5432))) with p by lia.
    + intros q Hq. apply Ho. lia.
    + exists m. split; [lia|exact H].
  - change 8%nat with (8 + 0)%nat.
    rewrite portscan_all_connected by (intros q Hq; apply H; lia).
    reflexivity.
  - change 8%nat with (8 + 0)%nat.
    rewrite portscan_all_connected by (intros q Hq; apply H; lia).
    cbn [trace fst]. rewrite dialled_app, dialled_dialEvents. reflexivity.
  - intros H. apply portscan_none_refused. intros q Hq. apply H. lia.
Qed.

Lemma portcheck_lowest_refused_witness :
  exists m, 5432 <= m <= 5433
    /\ result (portcheck firstListening) = Returned (m, None)
    /\ isRefused (probe firstListening m) = true
    /\ forall q, 5432 <= q < m -> isRefused (probe firstListening q) = false.
Proof.
  refine (proj1 (proj2 (portcheck_lowest_refused firstListening)) 5433 _ _ _).
  - lia.
  - reflexivity.
  - intros q Hq. assert (q = 5432) as -> by lia. reflexivity.
Defined.

(** ** The handler up to the validation of the request *)

Lemma quiet_app (t1 t2 : list event) : quiet (t1 ++ t2) = quiet t1 && quiet t2.
Proof. apply forallb_app. Qed.

Lemma quiet_tokenEvents (w : World) (req : Request) : quiet (tokenEvents w req) = true.
Proof. unfold tokenEvents. destruct (snd _); reflexivity. Qed.

Lemma quiet_no_dial (t : list event) : quiet t = true -> existsb isDial t = false.
Proof.
  induction t as [|e t IH]; [reflexivity|].
  simpl. intros H. apply andb_true_iff in H. destruct H as [He Ht].
  rewrite (IH Ht). destruct e; try reflexivity; discriminate.
Qed.

(** A request refused for its user id. *)
Lemma CreateService_mismatch_run (w : World) (req : Request) (bytes : string) (s : service) :
  Method req = "POST" ->
  Body req = (bytes, None) ->
  jsonUnmarshal w bytes zeroService = (s, None) ->
  UserID s <> subject w req ->
  CreateService w req =
    ((tokenEvents w req
        ++ [EvReadAll;
            EvLog ("user " ++ UserID s
                     ++ " trying to access /createservice using jwt userId "
                     ++ subject w req);
            EvHttpError "userid doesn't match" StatusInternalServerError])%list,
     Returned tt).
Proof.
  intros Hm Hb Hu Hne. unfold CreateService, subject, tokenEvents in *.
  rewrite Hm, Hb. cbn [String.eqb Ascii.eqb Bool.eqb negb].
  destruct (validateToken w (Authorization req)) as [userId err].
  cbn [fst snd] in *. rewrite Hu.
  apply String.eqb_neq in Hne. rewrite Hne.
  destruct err; reflexivity.
Qed.

(** A request refused for its engine. *)
Lemma CreateService_unsupported_run (w : World) (req : Request) (bytes : string) (s : service) :
  Method req = "POST" ->
  Body req = (bytes, None) ->
  jsonUnmarshal w bytes zeroService = (s, None) ->
  UserID s = subject w req ->
  Type_ (Db s) <> "postgres" ->
  CreateService w req =
    ((tokenEvents w req
        ++ [EvReadAll;
            EvFprintf ("currently we don't support " ++ Type_ (Db s));
            EvHttpError "db type is currently not supported" 500])%list,
     Returned tt).
Proof.
  intros Hm Hb Hu He Hne. unfold CreateService, subject, tokenEvents in *.
  rewrite Hm, Hb. cbn [String.eqb Ascii.eqb Bool.eqb negb].
  destruct (validateToken w (Authorization req)) as [userId err].
  cbn [fst snd] in *. rewrite Hu.
  apply String.eqb_eq in He. rewrite He.
  apply String.eqb_neq in Hne. rewrite Hne.
  destruct err; reflexivity.
Qed.

Lemma CreateService_wrong_method (w : World) (req : Request) :
  Method req <> "POST" ->
  CreateService w req = ([EvHttpError "Invalid Method" StatusMethodNotAllowed], Returned tt).
Proof.
  intros H. unfold CreateService. apply String.eqb_neq in H. now rewrite H.
Qed.

(** ** Claims on the validation of the request *)

(** C4: when the body decodes to a request whose [userid] differs from the
    subject taken from the bearer token, the handler returns after answering
    with the error "userid doesn't match", and nothing it did acts on the
    host: no port is probed, no directory or file is created or written, no
    command is run and the store is not touched. *)
Theorem CreateService_userid_mismatch
  (w : World) (req : Request) (bytes : string) (s : service) :
  Method req = "POST" ->
  Body req = (bytes, None) ->
  jsonUnmarshal w bytes zeroService = (s, None) ->
  UserID s <> subject w req ->
  result (CreateService w req) = Returned tt
  /\ (exists t, trace (CreateService w req)
                = (t ++ [EvHttpError "userid doesn't match" StatusInternalServerError])%list)
  /\ quiet (trace (CreateService w req)) = true.
Proof.
  intros Hm Hb Hu Hne.
  rewrite (CreateService_mismatch_run w req bytes s Hm Hb Hu Hne).
  cbn [result trace fst snd]. repeat split.
  - eexists (tokenEvents w req ++ [_; _])%list.
    rewrite <- app_assoc. reflexivity.
  - rewrite quiet_app, quiet_tokenEvents. reflexivity.
Qed.

Lemma CreateService_userid_mismatch_witness :
  result (CreateService healthyWorldU2 u2RequestAsU1) = Returned tt
  /\ (exists t, trace (CreateService healthyWorldU2 u2RequestAsU1)
                = (t ++ [EvHttpError "userid doesn't match" StatusInternalServerError])%list)
  /\ quiet (trace (CreateService healthyWorldU2 u2RequestAsU1)) = true.
Proof.
  apply (CreateService_userid_mismatch healthyWorldU2 u2RequestAsU1
           "body-u2-postgres" u2Service).
  - reflexivity.
  - reflexivity.
  - reflexivity.
  - vm_compute. discriminate.
Defined.

(** The calls the handler makes for a request whose engine is not
    "postgres": it never probes a port (nothing it does acts on the host),
    and for a POST of the authenticated subject it returns after
    [fmt.Fprintf] and [http.Error] with "db type is currently not
    supported".  What the client receives from these two calls is the
    subject of [unsupported_engine_answered_200]. *)
Theorem CreateService_unsupported_engine
  (w : World) (req : Request) (bytes : string) (s : service) :
  Body req = (bytes, None) ->
  jsonUnmarshal w bytes zeroService = (s, None) ->
  Type_ (Db s) <> "postgres" ->
  existsb isDial (trace (CreateService w req)) = false
  /\ quiet (trace (CreateService w req)) = true
  /\ (Method req = "POST" -> UserID s = subject w req ->
        result (CreateService w req) = Returned tt
        /\ exists t, trace (CreateService w req)
             = (t ++ [EvFprintf ("currently we don't support " ++ Type_ (Db s));
                      EvHttpError "db type is currently not supported" 500])%list).
Proof.
  intros Hb Hu Hne.
  assert (Hq : quiet (trace (CreateService w req)) = true).
  { destruct (string_dec (Method req) "POST") as [Hm|Hm].
    - destruct (string_dec (UserID s) (subject w req)) as [He|He].
      + rewrite (CreateService_unsupported_run w req bytes s Hm Hb Hu He Hne).
        cbn [trace fst]. rewrite quiet_app, quiet_tokenEvents. reflexivity.
      + rewrite (CreateService_mismatch_run w req bytes s Hm Hb Hu He).
        cbn [trace fst]. rewrite quiet_app, quiet_tokenEvents. reflexivity.
    - rewrite (CreateService_wrong_method w req Hm). reflexivity. }
  split; [apply quiet_no_dial, Hq|]. split; [exact Hq|].
  intros Hm He.
  rewrite (CreateService_unsupported_run w req bytes s Hm Hb Hu He Hne).
  cbn [result trace fst snd]. split; [reflexivity|].
  exists (tokenEvents w req ++ [EvReadAll])%list.
  rewrite <- app_assoc. reflexivity.
Qed.

Lemma CreateService_unsupported_engine_witness :
  existsb isDial (trace (CreateService healthyWorldMysql mysqlRequest)) = false
  /\ quiet (trace (CreateService healthyWorldMysql mysqlRequest)) = true
  /\ result (CreateService healthyWorldMysql mysqlRequest) = Returned tt
  /\ exists t, trace (CreateService healthyWorldMysql mysqlRequest)
       = (t ++ [EvFprintf "currently we don't support mysql";
                EvHttpError "db type is currently not supported" 500])%list.
Proof.
  destruct (CreateService_unsupported_engine healthyWorldMysql mysqlRequest
              "body-u1-mysql" mysqlService) as [Hd [Hq Hv]].
  - reflexivity.
  - reflexivity.
  - vm_compute. discriminate.
  - split; [exact Hd|]. split; [exact Hq|]. apply Hv; reflexivity.
Defined.

(** The status of the answer to an unsupported engine: when the token was
    validated, the first write to the response is the [fmt.Fprintf], so the
    header goes out with 200 and the 500 of [http.Error] comes too late. *)
Lemma CreateService_unsupported_status
  (w : World) (req : Request) (bytes : string) (s : service) :
  Method req = "POST" ->
  Body req = (bytes, None) ->
  jsonUnmarshal w bytes zeroService = (s, None) ->
  snd (validateToken w (Authorization req)) = None ->
  UserID s = subject w req ->
  Type_ (Db s) <> "postgres" ->
  responseStatus (trace (CreateService w req)) = Some 200
  /\ responseBody (trace (CreateService w req))
     = ("currently we don't support " ++ Type_ (Db s))
         ++ "db type is currently not supported" ++ newline.
Proof.
  intros Hm Hb Hd Ht Hu Hne.
  rewrite (CreateService_unsupported_run w req bytes s Hm Hb Hd Hu Hne).
  unfold tokenEvents. rewrite Ht. cbn [trace fst app responseStatus responseBody].
  split; reflexivity.
Qed.

(** C7 does not hold of the code: for a POST of the authenticated subject
    [u1] whose engine is "mysql", no port is probed and the handler returns
    without provisioning, but the request does not fail: the handler writes
    "currently we don't support mysql" to the response before it calls
    [http.Error], so the client receives status 200 with both messages in
    the body, and the status 500 is never sent. *)
Theorem unsupported_engine_answered_200 :
  CreateService healthyWorldMysql mysqlRequest
  = ([EvReadAll;
      EvFprintf "currently we don't support mysql";
      EvHttpError "db type is currently not supported" 500],
     Returned tt)
  /\ existsb isDial (trace (CreateService healthyWorldMysql mysqlRequest)) = false
  /\ responseStatus (trace (CreateService healthyWorldMysql mysqlRequest)) = Some 200
  /\ responseBody (trace (CreateService healthyWorldMysql mysqlRequest))
     = "currently we don't support mysql"
         ++ "db type is currently not supported" ++ newline.
Proof. repeat split. Qed.

(** ** The handler from the allocation on *)

Lemma bind_result {A B} (m : io A) (a : A) (k : A -> io B) :
  result m = Returned a ->
  bind m k = ((trace m ++ trace (k a))%list, result (k a)).
Proof. destruct m as [t o]. cbn [result snd]. intros ->. reflexivity. Qed.

(** The scan always returns to its caller. *)
Lemma portscan_returns (w : World) (n : nat) : forall p,
  exists pe, result (portscan w n p) = Returned pe.
Proof.
  induction n as [|n IH]; intros p.
  - eexists. reflexivity.
  - destruct (probe_cases w p) as [[H _]|[[H _]|[H _]]].
    + rewrite portscan_connected by exact H. apply IH.
    + rewrite portscan_refused by exact H. eexists. reflexivity.
    + rewrite portscan_other_error by exact H. eexists. reflexivity.
Qed.

Lemma portcheck_result (w : World) :
  result (portcheck w) = Returned (allocated w, allocationError w).
Proof.
  unfold allocated, allocationError.
  destruct (portscan_returns w 8 5432) as [[p e] H].
  rewrite portcheck_eq, H. reflexivity.
Qed.

Section Launched.

Variables (w : World) (req : Request) (bytes : string) (s : service).

Hypothesis Hmethod : Method req = "POST".
Hypothesis Hbody : Body req = (bytes, None).
Hypothesis Hdecode : jsonUnmarshal w bytes zeroService = (s, None).
Hypothesis Huser : UserID s = subject w req.
Hypothesis Hengine : Type_ (Db s) = "postgres".

(** The steps of the handler up to the allocation, for such a request. *)
Ltac run_to_allocation :=
  unfold CreateService, allocatedTrace, subject, tokenEvents in *;
  rewrite Hmethod, Hbody; cbn [String.eqb Ascii.eqb Bool.eqb negb];
  destruct (validateToken w (Authorization req)) as [userId err];
  cbn [fst snd] in *; rewrite Hdecode;
  apply String.eqb_eq in Huser; rewrite Huser;
  rewrite Hengine; cbn [String.eqb Ascii.eqb Bool.eqb negb notNil];
  rewrite (bind_result _ _ _ (portcheck_result w));
  cbn [fst snd trace result];
  change (setArchitecture (setDbPort s (allocated w)) (architecture w))
    with (staged w s);
  change (projectDir w ++ "/" ++ UserID (staged w s) ++ "/"
            ++ Name (Db (staged w s)))
    with (servicePath w s).

Ltac finish_run err :=
  destruct err; cbn [notNil bind emit ret fst snd app];
  rewrite ?app_nil_r, <- ?app_assoc; reflexivity.

(** The rendering fails: the handler answers with an error and stops. *)
Lemma CreateService_prepare_failed (e : error) :
  result (prepareService w (staged w s) (servicePath w s)) = Returned (Some e) ->
  CreateService w req =
    ((allocatedTrace w req
        ++ trace (prepareService w (staged w s) (servicePath w s))
        ++ [EvLog ("ERROR: preparing service for " ++ UserID s ++ " " ++ e);
            EvHttpError "Error preparing service" 500])%list,
     Returned tt).
Proof.
  intros Hp. run_to_allocation.
  rewrite (bind_result _ _ _ Hp).
  cbn [fst snd trace result notNil Error].
  finish_run err.
Qed.

Hypothesis Hprepare :
  result (prepareService w (staged w s) (servicePath w s)) = Returned None.
Hypothesis Hstart :
  result (startService w (staged w s) (servicePath w s)) = Returned None.

Lemma CreateService_lookup_failed (out : string) (e : error) :
  CombinedOutput w queryArgv = (out, Some e) ->
  CreateService w req =
    ((launchedTrace w req s
        ++ [EvLog ("ERROR: getting container id " ++ e);
            EvHttpError "Error getting container id" 500])%list,
     Returned tt).
Proof.
  intros Hq. unfold launchedTrace. run_to_allocation.
  rewrite (bind_result _ _ _ Hprepare). cbn [fst snd trace result notNil].
  rewrite (bind_result _ _ _ Hstart). cbn [fst snd trace result notNil].
  unfold lastContainerID. fold queryArgv. rewrite Hq.
  finish_run err.
Qed.

Lemma CreateService_lookup_succeeded (out body : string) :
  CombinedOutput w queryArgv = (out, None) ->
  jsonMarshal w (mkServiceResponse "localhost" (allocated w) out) = (body, None) ->
  CreateService w req =
    ((launchedTrace w req s ++ trace (persistAndAnswer w s out body))%list,
     result (persistAndAnswer w s out body)).
Proof.
  intros Hq Hj. unfold launchedTrace, persistAndAnswer. run_to_allocation.
  rewrite (bind_result _ _ _ Hprepare). cbn [fst snd trace result notNil].
  rewrite (bind_result _ _ _ Hstart). cbn [fst snd trace result notNil].
  unfold lastContainerID. fold queryArgv. rewrite Hq.
  cbn [notNil bind emit ret fst snd app].
  change (Port (Db (setDbID (staged w s) out))) with (allocated w).
  rewrite Hj.
  change (UserID (setDbID (staged w s) out)) with (UserID s).
  finish_run err.
Qed.

End Launched.

(** ** Claims on the container lookup *)

(** C8, as stated, fails: when the engine lists no container (the query
    succeeds and prints nothing), the lookup returns the empty identifier
    without an error, and the handler records it and answers with it as a
    success, with no error response. *)
Lemma empty_container_id_is_a_success :
  result (lastContainerID noContainerListed) = Returned ("", None)
  /\ result (CreateService noContainerListed u1Request) = Returned tt
  /\ In (EvStmtExec "" "pg1" 5432) (trace (CreateService noContainerListed u1Request))
  /\ In (EvResponseWrite "{HostName:localhost,Port:5432,ContainerID:}")
       (trace (CreateService noContainerListed u1Request))
  /\ existsb isHttpError (trace (CreateService noContainerListed u1Request)) = false.
Proof.
  repeat split; try reflexivity; vm_compute; tauto.
Qed.

(** C8, amended: after a successful launch the lookup runs one query, for
    the single most recent container ([docker ps --last 1 -q]).  When the
    query fails, the lookup returns its error and the handler answers
    "Error getting container id" and stops, without persisting anything.
    When the query does not fail, the lookup returns its output as the
    identifier, whatever it is (an empty output included), and the handler
    persists and answers with that identifier. *)
Theorem CreateService_container_lookup
  (w : World) (req : Request) (bytes : string) (s : service) :
  Method req = "POST" ->
  Body req = (bytes, None) ->
  jsonUnmarshal w bytes zeroService = (s, None) ->
  UserID s = subject w req ->
  Type_ (Db s) = "postgres" ->
  result (prepareService w (staged w s) (servicePath w s)) = Returned None ->
  result (startService w (staged w s) (servicePath w s)) = Returned None ->
  trace (lastContainerID w)
    = [EvCombinedOutput ["/bin/bash"; "-c"; "docker ps --last 1 -q"]]
  /\ (forall out e, CombinedOutput w queryArgv = (out, Some e) ->
        result (lastContainerID w) = Returned ("", Some e)
        /\ CreateService w req =
             ((launchedTrace w req s
                 ++ [EvLog ("ERROR: getting container id " ++ e);
                     EvHttpError "Error getting container id" 500])%list,
              Returned tt))
  /\ (forall out body, CombinedOutput w queryArgv = (out, None) ->
        jsonMarshal w (mkServiceResponse "localhost" (allocated w) out) = (body, None) ->
        result (lastContainerID w) = Returned (out, None)
        /\ CreateService w req =
             ((launchedTrace w req s ++ trace (persistAndAnswer w s out body))%list,
              result (persistAndAnswer w s out body))).
Proof.
  intros Hm Hb Hd Hu He Hp Hs. repeat split.
  - unfold lastContainerID. fold queryArgv.
    destruct (CombinedOutput w queryArgv) as [out [e|]]; reflexivity.
  - unfold lastContainerID. fold queryArgv. rewrite H. reflexivity.
  - eapply CreateService_lookup_failed; eassumption.
  - unfold lastContainerID. fold queryArgv. rewrite H. reflexivity.
  - eapply CreateService_lookup_succeeded; eassumption.
Qed.

Lemma CreateService_container_lookup_witness :
  result (lastContainerID engineQueryFails) = Returned ("", Some "exit status 1")
  /\ CreateService engineQueryFails u1Request =
       ((launchedTrace engineQueryFails u1Request sampleService
           ++ [EvLog ("ERROR: getting container id " ++ "exit status 1");
               EvHttpError "Error getting container id" 500])%list,
        Returned tt).
Proof.
  refine (proj1 (proj2 (CreateService_container_lookup engineQueryFails u1Request
                          "body-u1-postgres" sampleService _ _ _ _ _ _ _))
            "Cannot connect to the Docker daemon" "exit status 1" _);
    reflexivity.
Defined.

(** ** Claims on a failed token validation *)

(** A failed validation hands the empty string to the handler. *)
Lemma validateToken_failed (w : World) (authHeader : string) (e : error) :
  snd (validateToken w authHeader) = Some e ->
  fst (validateToken w authHeader) = "".
Proof.
  unfold validateToken.
  destruct (List.length (strings.Split authHeader "Bearer ") <? 2)%nat; [reflexivity|].
  destruct (JWTToString w _) as [userID [e'|]]; cbn [notNil fst snd];
    [reflexivity|discriminate].
Qed.

Lemma prepareService_first (w : World) (s : service) (path : string) :
  exists t, trace (prepareService w s path) = EvMkdirAll path :: t.
Proof.
  unfold prepareService. rewrite bind_emit. eexists. reflexivity.
Qed.

Lemma trace_bind_app {A B} (m : io A) (k : A -> io B) :
  exists t, trace (bind m k) = (trace m ++ t)%list.
Proof.
  destruct m as [t [a| |]]; unfold bind; cbn [fst snd trace].
  - eexists. reflexivity.
  - exists []. now rewrite app_nil_r.
  - exists []. now rewrite app_nil_r.
Qed.

(** A validated request always gets as far as the rendering. *)
Lemma CreateService_reaches_rendering
  (w : World) (req : Request) (bytes : string) (s : service) :
  Method req = "POST" ->
  Body req = (bytes, None) ->
  jsonUnmarshal w bytes zeroService = (s, None) ->
  UserID s = subject w req ->
  Type_ (Db s) = "postgres" ->
  exists t, trace (CreateService w req)
            = (allocatedTrace w req ++ EvMkdirAll (servicePath w s) :: t)%list.
Proof.
  intros Hmethod Hbody Hdecode Huser Hengine.
  unfold CreateService, allocatedTrace, subject, tokenEvents in *.
  rewrite Hmethod, Hbody. cbn [String.eqb Ascii.eqb Bool.eqb negb].
  destruct (validateToken w (Authorization req)) as [userId err].
  cbn [fst snd] in *. rewrite Hdecode.
  apply String.eqb_eq in Huser. rewrite Huser.
  rewrite Hengine. cbn [String.eqb Ascii.eqb Bool.eqb negb notNil].
  rewrite (bind_result _ _ _ (portcheck_result w)).
  cbn [fst snd trace result].
  change (setArchitecture (setDbPort s (allocated w)) (architecture w))
    with (staged w s).
  change (projectDir w ++ "/" ++ UserID (staged w s) ++ "/"
            ++ Name (Db (staged w s)))
    with (servicePath w s).
  match goal with
  | |- context [bind (prepareService ?a ?b ?c) ?k] =>
      destruct (trace_bind_app (prepareService a b c) k) as [t1 Ht1];
      destruct (prepareService_first a b c) as [t0 Ht0]
  end.
  rewrite Ht1, Ht0.
  exists (t0 ++ t1)%list.
  destruct err; cbn [notNil bind emit ret fst snd app];
    rewrite ?app_nil_r, <- ?app_assoc; reflexivity.
Qed.

(** C10: when the validation of the bearer token fails, the handler writes
    the error response "error validating token" and goes on: it reads and
    decodes the body, and the subject it compares with is the empty string.
    So a request for postgres whose [userid] is empty passes the validation:
    the ports are scanned and the rendering starts, and when rendering,
    launch, lookup and encoding succeed the handler persists the cluster
    and writes the answer, exactly as for an authenticated request. *)
Theorem CreateService_failed_token_empty_userid
  (w : World) (req : Request) (bytes : string) (s : service) (e : error) :
  Method req = "POST" ->
  snd (validateToken w (Authorization req)) = Some e ->
  Body req = (bytes, None) ->
  jsonUnmarshal w bytes zeroService = (s, None) ->
  UserID s = "" ->
  Type_ (Db s) = "postgres" ->
  subject w req = ""
  /\ (exists t, trace (CreateService w req)
        = ([EvLog ("error validating token " ++ e);
            EvHttpError "error validating token" 500;
            EvReadAll]
             ++ trace (portcheck w) ++ EvMkdirAll (servicePath w s) :: t)%list)
  /\ (result (prepareService w (staged w s) (servicePath w s)) = Returned None ->
      result (startService w (staged w s) (servicePath w s)) = Returned None ->
      forall out body,
        CombinedOutput w queryArgv = (out, None) ->
        jsonMarshal w (mkServiceResponse "localhost" (allocated w) out) = (body, None) ->
        CreateService w req =
          (([EvLog ("error validating token " ++ e);
             EvHttpError "error validating token" 500;
             EvReadAll]
              ++ trace (portcheck w)
              ++ trace (prepareService w (staged w s) (servicePath w s))
              ++ trace (startService w (staged w s) (servicePath w s))
              ++ [EvLog ("INFO: created service for user " ++ UserID s);
                  EvCombinedOutput queryArgv]
              ++ trace (persistAndAnswer w s out body))%list,
           result (persistAndAnswer w s out body))).
Proof.
  intros Hm Ht Hb Hd Hu He.
  assert (Hsub : subject w req = "") by (eapply validateToken_failed; eassumption).
  assert (Huser : UserID s = subject w req) by congruence.
  assert (Htok : tokenEvents w req
                 = [EvLog ("error validating token " ++ e);
                    EvHttpError "error validating token" 500])
    by (unfold tokenEvents; now rewrite Ht).
  split; [exact Hsub|]. split.
  - destruct (CreateService_reaches_rendering w req bytes s Hm Hb Hd Huser He)
      as [t Htr].
    exists t. rewrite Htr. unfold allocatedTrace. rewrite Htok. reflexivity.
  - intros Hp Hs out body Hq Hj.
    rewrite (CreateService_lookup_succeeded w req bytes s Hm Hb Hd Huser He Hp Hs
               out body Hq Hj).
    unfold launchedTrace, allocatedTrace. rewrite Htok.
    cbn [app]. rewrite <- ?app_assoc. reflexivity.
Qed.

Lemma CreateService_failed_token_empty_userid_witness :
  subject healthyWorldAnonymous anonymousRequest = ""
  /\ result (CreateService healthyWorldAnonymous anonymousRequest) = Returned tt
  /\ In (EvHttpError "error validating token" 500)
       (trace (CreateService healthyWorldAnonymous anonymousRequest))
  /\ In (EvStmtExec ("3f2a9c1b7d10" ++ newline) "pg1" 5432)
       (trace (CreateService healthyWorldAnonymous anonymousRequest))
  /\ In (EvResponseWrite anonymousAnswer)
       (trace (CreateService healthyWorldAnonymous anonymousRequest)).
Proof.
  destruct (CreateService_failed_token_empty_userid healthyWorldAnonymous
              anonymousRequest "body-anonymous-postgres" anonymousService
              "cannot validate empty token")
    as [Hsub [_ Hrun]]; try reflexivity.
  split; [exact Hsub|].
  rewrite (Hrun eq_refl eq_refl ("3f2a9c1b7d10" ++ newline) anonymousAnswer
             eq_refl eq_refl).
  repeat split; vm_compute; tauto.
Defined.

(** ** Claims on the renderer *)

(** Whatever the request carries, the template sees 5432 as its [Port]. *)
Lemma composeData_port (w : World) (s : service) :
  field "Port" (composeData w s) = Some (VUint 5432).
Proof. reflexivity. Qed.

(** The rendered document does not depend on the port of the request. *)
Lemma createDockerComposeFile_ignores_port
  (w : World) (path : string) (s : service) (p : Z) :
  svcName w (setDbPort s p) = svcName w s ->
  svcTunnelSecret w (setDbPort s p) = svcTunnelSecret w s ->
  createDockerComposeFile w path (setDbPort s p) = createDockerComposeFile w path s.
Proof.
  intros Hn Hs. unfold createDockerComposeFile, composeData.
  rewrite Hn, Hs. reflexivity.
Qed.

(** C1 does not hold of the code: on a host where 5432 has a listener and
    5433 is free, the allocator returns 5433, the cluster is recorded and
    answered with port 5433, and the compose document is rendered with port
    5432, the constant the renderer passes to the template. *)
Theorem compose_port_is_not_the_allocated_port :
  result (portcheck firstListening) = Returned (5433, None)
  /\ In (EvFileWrite composePath "name: u1-pg1; host port: 5432")
       (trace (CreateService firstListening u1Request))
  /\ In (EvStmtExec containerID1 "pg1" 5433)
       (trace (CreateService firstListening u1Request))
  /\ In (EvResponseWrite
           ("{HostName:localhost,Port:5433,ContainerID:" ++ containerID1 ++ "}"))
       (trace (CreateService firstListening u1Request)).
Proof.
  repeat split; try reflexivity; vm_compute; tauto.
Qed.

(** C9: the result of the renderer (the bytes written to the compose
    document, with every other event and the error) is the same on any two
    hosts that agree on the project directory, on the template, on the
    destination path and whether the file can be created there, and on the
    request; nothing else of the host (the network, the engine, the store)
    has a part in it. *)
Theorem createDockerComposeFile_deterministic
  (w1 w2 : World) (path : string) (s : service) :
  projectDir w1 = projectDir w2 ->
  ParseFiles w1 composeTemplate = ParseFiles w2 composeTemplate ->
  filepathJoin w1 path "docker-compose.yml" = filepathJoin w2 path "docker-compose.yml" ->
  osCreate w1 (filepathJoin w1 path "docker-compose.yml")
    = osCreate w2 (filepathJoin w2 path "docker-compose.yml") ->
  svcName w1 s = svcName w2 s ->
  svcTunnelSecret w1 s = svcTunnelSecret w2 s ->
  createDockerComposeFile w1 path s = createDockerComposeFile w2 path s.
Proof.
  intros Hdir Htempl Hjoin Hcreate Hname Hsecret.
  unfold createDockerComposeFile, composeData.
  rewrite Hcreate, Htempl, Hdir, Hname, Hsecret, Hjoin. reflexivity.
Qed.

Lemma createDockerComposeFile_deterministic_witness :
  createDockerComposeFile healthyWorld "/srv/spinup/u1/pg1" sampleService
  = createDockerComposeFile secondResets "/srv/spinup/u1/pg1" sampleService.
Proof.
  apply (createDockerComposeFile_deterministic healthyWorld secondResets
           "/srv/spinup/u1/pg1" sampleService); reflexivity.
Defined.

(** ** Claims on the failures of a request *)

(** C2 does not hold of the code: on a host where every candidate port has
    a listener, the allocator fails, and the handler drops the error: it
    renders the compose document, launches the container, records the
    cluster with port 0 and answers with port 0, with no error response. *)
Theorem portcheck_error_is_dropped :
  result (portcheck allListening) = Returned (0, occupied)
  /\ result (CreateService allListening u1Request) = Returned tt
  /\ In (EvFileWrite composePath "name: u1-pg1; host port: 5432")
       (trace (CreateService allListening u1Request))
  /\ In (EvRun ["docker-compose"; "-f"; composePath; "up"; "-d"])
       (trace (CreateService allListening u1Request))
  /\ In (EvStmtExec containerID1 "pg1" 0)
       (trace (CreateService allListening u1Request))
  /\ In (EvResponseWrite
           ("{HostName:localhost,Port:0,ContainerID:" ++ containerID1 ++ "}"))
       (trace (CreateService allListening u1Request))
  /\ existsb isHttpError (trace (CreateService allListening u1Request)) = false.
Proof.
  repeat split; try reflexivity; vm_compute; tauto.
Qed.

(** A body that cannot be read ends the process. *)
Lemma CreateService_unreadable_body (w : World) (req : Request) (bytes : string) (e : error) :
  Method req = "POST" ->
  Body req = (bytes, Some e) ->
  result (CreateService w req) = Exited 1.
Proof.
  intros Hm Hb. unfold CreateService.
  rewrite Hm, Hb. cbn [String.eqb Ascii.eqb Bool.eqb negb].
  destruct (validateToken w (Authorization req)) as [userId [err|]]; reflexivity.
Qed.

(** A body that cannot be decoded ends the process. *)
Lemma CreateService_undecodable_body
  (w : World) (req : Request) (bytes : string) (s : service) (e : error) :
  Method req = "POST" ->
  Body req = (bytes, None) ->
  jsonUnmarshal w bytes zeroService = (s, Some e) ->
  result (CreateService w req) = Exited 1.
Proof.
  intros Hm Hb Hd. unfold CreateService.
  rewrite Hm, Hb. cbn [String.eqb Ascii.eqb Bool.eqb negb].
  destruct (validateToken w (Authorization req)) as [userId [err|]];
    cbn [notNil bind emit ret fst snd]; rewrite Hd; reflexivity.
Qed.

(** A store that cannot prepare or execute the insertion, or that cannot be
    opened or begin a transaction, ends the process. *)
Lemma updateSqliteDB_exits (w : World) (path dbName : string) (data : service) :
  notNil (sqlOpen w "sqlite3" (path ++ "/" ++ dbName ++ ".db"))
  || notNil (dbBegin w)
  || notNil (txPrepare w insertStmt)
  || notNil (stmtExec w (ID (Db data)) (Name (Db data)) (Port (Db data))) = true ->
  result (updateSqliteDB w path dbName data) = Exited 1.
Proof.
  unfold updateSqliteDB.
  destruct (sqlOpen w _ _); [reflexivity|].
  destruct (dbExec w _), (dbBegin w); try reflexivity;
    destruct (txPrepare w _); try reflexivity;
    destruct (stmtExec w _ _ _); try reflexivity; discriminate.
Qed.

(** C3 does not hold of the code: a request whose body cannot be read, a
    request whose body is not a JSON document, and a request whose record
    cannot be inserted in the store each end the whole process with exit
    status 1 ([log.Fatal]); in the last case the container is already up
    and no response is written. *)
Theorem request_errors_exit_the_process :
  result (CreateService healthyWorld unreadableRequest) = Exited 1
  /\ result (CreateService healthyWorld malformedRequest) = Exited 1
  /\ result (CreateService storeCannotPrepare u1Request) = Exited 1
  /\ In (EvRun ["docker-compose"; "-f"; composePath; "up"; "-d"])
       (trace (CreateService storeCannotPrepare u1Request))
  /\ existsb isHttpError (trace (CreateService storeCannotPrepare u1Request)) = false.
Proof.
  repeat split; try reflexivity; vm_compute; tauto.
Qed.

(** ** More on the port allocator *)

Lemma isOtherError_some (err : option error) :
  isOtherError err = true -> exists e, err = Some e.
Proof. destruct err as [e|]; [eexists; reflexivity|discriminate]. Qed.

(** What a successful scan says about the host. *)
Lemma portscan_sound (w : World) (n : nat) : forall p0 p,
  result (portscan w n p0) = Returned (p, None) ->
  p0 <= p < p0 + Z.of_nat n
  /\ isRefused (probe w p) = true
  /\ forall q, p0 <= q < p -> probe w q = None.
Proof.
  induction n as [|n IH]; intros p0 p H.
  - discriminate.
  - destruct (probe_cases w p0) as [[Hc _]|[[Hr _]|[Ho _]]].
    + rewrite portscan_connected in H by exact Hc.
      destruct (IH _ _ H) as [Hp [Hrp Hlow]].
      repeat split; try lia; auto.
      intros q Hq. destruct (Z.eq_dec q p0) as [->|Hne]; [exact Hc|].
      apply Hlow. lia.
    + rewrite portscan_refused in H by exact Hr.
      injection H as <-. repeat split; try lia; auto.
    + rewrite portscan_other_error in H by exact Ho.
      destruct (isOtherError_some _ Ho) as [e He].
      cbn [result snd] in H. rewrite He in H. discriminate.
Qed.

(** What a failed scan says about the host. *)
Lemma portscan_failure (w : World) (n : nat) : forall p0 p e,
  result (portscan w n p0) = Returned (p, Some e) ->
  p = 0
  /\ (((forall q, p0 <= q < p0 + Z.of_nat n -> probe w q = None)
       /\ Some e = occupied)
      \/ exists k, p0 <= k < p0 + Z.of_nat n
           /\ probe w k = Some e
           /\ isOtherError (probe w k) = true
           /\ forall q, p0 <= q < k -> probe w q = None).
Proof.
  induction n as [|n IH]; intros p0 p e H.
  - injection H as <- <-. split; [reflexivity|]. left. split; [|reflexivity].
    intros q Hq. lia.
  - destruct (probe_cases w p0) as [[Hc _]|[[Hr _]|[Ho _]]].
    + rewrite portscan_connected in H by exact Hc.
      destruct (IH _ _ _ H) as [Hp [[Hall Hocc]|[k [Hk [Hpk [Hok Hlow]]]]]].
      * split; [exact Hp|]. left. split; [|exact Hocc].
        intros q Hq. destruct (Z.eq_dec q p0) as [->|Hne]; [exact Hc|].
        apply Hall. lia.
      * split; [exact Hp|]. right. exists k. repeat split; try lia; auto.
        intros q Hq. destruct (Z.eq_dec q p0) as [->|Hne]; [exact Hc|].
        apply Hlow. lia.
    + rewrite portscan_refused in H by exact Hr. discriminate.
    + rewrite portscan_other_error in H by exact Ho.
      cbn [result snd] in H. injection H as <- He.
      split; [reflexivity|]. right. exists p0.
      repeat split; try lia; auto.
Qed.

(** X1: a port returned without error is one of the eight candidates, its
    connection attempt was actively refused, and every candidate below it
    accepted the connection; so the allocator never returns a port on which
    the attempt found a listener. *)
Theorem portcheck_returns_free_port (w : World) (p : Z) :
  result (portcheck w) = Returned (p, None) ->
  5432 <= p < 5440
  /\ isRefused (probe w p) = true
  /\ forall q, 5432 <= q < p -> probe w q = None.
Proof.
  rewrite portcheck_eq. intros H.
  destruct (portscan_sound w 8 5432 p H) as [Hp Hrest].
  split; [lia|exact Hrest].
Qed.

Lemma portcheck_returns_free_port_witness :
  5432 <= 5433 < 5440
  /\ isRefused (probe firstListening 5433) = true
  /\ forall q, 5432 <= q < 5433 -> probe firstListening q = None.
Proof.
  apply (portcheck_returns_free_port firstListening 5433). reflexivity.
Defined.

(** X2: when the allocator returns an error the port is 0, and the error is
    either "all allocated ports are occupied", every candidate having
    accepted the connection, or the error of the first candidate that did
    not accept it, which is not a refusal. *)
Theorem portcheck_error_cases (w : World) (p : Z) (e : error) :
  result (portcheck w) = Returned (p, Some e) ->
  p = 0
  /\ (((forall q, 5432 <= q < 5440 -> probe w q = None) /\ Some e = occupied)
      \/ exists k, 5432 <= k < 5440
           /\ probe w k = Some e
           /\ isOtherError (probe w k) = true
           /\ forall q, 5432 <= q < k -> probe w q = None).
Proof.
  rewrite portcheck_eq. intros H.
  destruct (portscan_failure w 8 5432 p e H) as [Hp [[Hall Ho]|[k [Hk Hrest]]]].
  - split; [exact Hp|]. left. split; [|exact Ho].
    intros q Hq. apply Hall. lia.
  - split; [exact Hp|]. right. exists k. split; [lia|exact Hrest].
Qed.

Lemma portcheck_error_cases_witness :
  0 = 0
  /\ (((forall q, 5432 <= q < 5440 -> probe secondResets q = None)
       /\ Some "read tcp 127.0.0.1:5433: connection reset by peer" = occupied)
      \/ exists k, 5432 <= k < 5440
           /\ probe secondResets k
              = Some "read tcp 127.0.0.1:5433: connection reset by peer"
           /\ isOtherError (probe secondResets k) = true
           /\ forall q, 5432 <= q < k -> probe secondResets q = None).
Proof.
  apply (portcheck_error_cases secondResets 0
           "read tcp 127.0.0.1:5433: connection reset by peer").
  reflexivity.
Defined.

(** ** strings.Split and the bearer token *)

Lemma append_empty_r (s : string) : s ++ "" = s.
Proof. induction s as [|c s IH]; [reflexivity|]. cbn. now rewrite IH. Qed.

Lemma append_assoc (a b c : string) : (a ++ b) ++ c = a ++ b ++ c.
Proof. induction a as [|x a IH]; [reflexivity|]. cbn. now rewrite IH. Qed.

Lemma length_append (a b : string) :
  String.length (a ++ b) = (String.length a + String.length b)%nat.
Proof. induction a as [|c a IH]; [reflexivity|]. cbn. now rewrite IH. Qed.

Lemma prefix_append (sep rest : string) : prefix sep (sep ++ rest) = true.
Proof.
  induction sep as [|c sep IH]; [destruct rest; reflexivity|].
  cbn. destruct (ascii_dec c c) as [_|Hne]; [exact IH|congruence].
Qed.

(** Whether [sep] starts [y] is decided by the first [length sep]
    characters of [y]. *)
Lemma prefix_long (sep : string) : forall y z,
  (String.length sep <= String.length y)%nat ->
  prefix sep (y ++ z) = prefix sep y.
Proof.
  induction sep as [|c sep IH]; intros y z Hlen.
  - destruct y, z; reflexivity.
  - destruct y as [|d y]; [cbn in Hlen; lia|].
    cbn. destruct (ascii_dec c d); [|reflexivity].
    apply IH. cbn in Hlen. lia.
Qed.

Lemma Contains_cons (c : ascii) (s sep : string) :
  strings.Contains (String c s) sep = false ->
  prefix sep (String c s) = false /\ strings.Contains s sep = false.
Proof.
  cbn [strings.Contains]. destruct (prefix sep (String c s)); [discriminate|auto].
Qed.

(** The characters of a separator just found are dropped. *)
Lemma splitScan_skip (sep : string) (dropped : string) : forall rest cur,
  strings.splitScan sep (dropped ++ rest) (String.length dropped) cur
  = strings.splitScan sep rest 0 cur.
Proof.
  induction dropped as [|c dropped IH]; intros rest cur; [reflexivity|].
  cbn [append String.length strings.splitScan]. apply IH.
Qed.

(** Without a separator the string is one piece. *)
Lemma splitScan_no_sep (sep : string) : forall s cur,
  strings.Contains s sep = false ->
  strings.splitScan sep s 0 cur = [cur ++ s].
Proof.
  induction s as [|c s IH]; intros cur H.
  - cbn. now rewrite append_empty_r.
  - destruct (Contains_cons _ _ _ H) as [Hp Hs].
    cbn [strings.splitScan]. rewrite Hp, (IH _ Hs), append_assoc. reflexivity.
Qed.

(** A separator at the head ends the piece being read. *)
Lemma splitScan_at_sep (sep rest cur : string) :
  sep <> "" ->
  strings.splitScan sep (sep ++ rest) 0 cur
  = cur :: strings.splitScan sep rest 0 "".
Proof.
  intros Hne. pose proof (prefix_append sep rest) as Hp.
  destruct sep as [|c sep']; [congruence|].
  change (String c sep' ++ rest) with (String c (sep' ++ rest)) in *.
  cbn [strings.splitScan]. rewrite Hp.
  replace (String.length (String c sep') - 1)%nat with (String.length sep')
    by (cbn [String.length]; lia).
  rewrite splitScan_skip. reflexivity.
Qed.

(** The first separator ends the first piece.  The separator is [init]
    followed by the character [l]; that no separator starts inside [pre] is
    read on [pre ++ init]. *)
Lemma splitScan_first_sep (init : string) (l : ascii) : forall pre rest cur,
  strings.Contains (pre ++ init) (init ++ String l "") = false ->
  strings.splitScan (init ++ String l "") (pre ++ (init ++ String l "") ++ rest) 0 cur
  = (cur ++ pre) :: strings.splitScan (init ++ String l "") rest 0 "".
Proof.
  induction pre as [|d pre IH]; intros rest cur H.
  - change ("" ++ (init ++ String l "") ++ rest) with ((init ++ String l "") ++ rest).
    rewrite splitScan_at_sep, append_empty_r; [reflexivity|].
    destruct init; discriminate.
  - change (String d pre ++ init) with (String d (pre ++ init)) in H.
    destruct (Contains_cons _ _ _ H) as [Hp Hs].
    change (String d pre ++ (init ++ String l "") ++ rest)
      with (String d (pre ++ (init ++ String l "") ++ rest)).
    assert (Hp' : prefix (init ++ String l "")
                    (String d (pre ++ (init ++ String l "") ++ rest)) = false).
    { replace (String d (pre ++ (init ++ String l "") ++ rest))
        with (String d (pre ++ init) ++ (String l "" ++ rest)).
      - rewrite prefix_long; [exact Hp|].
        cbn [String.length]. rewrite !length_append. cbn [String.length]. lia.
      - cbn [append]. f_equal. now rewrite !append_assoc. }
    cbn [strings.splitScan]. rewrite Hp', (IH _ _ Hs), append_assoc. reflexivity.
Qed.

Lemma Split_bearer (pre rest : string) :
  strings.Contains (pre ++ "Bearer") "Bearer " = false ->
  strings.Split (pre ++ "Bearer " ++ rest) "Bearer "
  = pre :: strings.Split rest "Bearer ".
Proof.
  intros H. unfold strings.Split.
  apply (splitScan_first_sep "Bearer" " " pre rest "" H).
Qed.

(** X3: a header in which "Bearer " does not occur (no header at all, another
    scheme, "bearer" in lower case, "Bearer" without the space) is refused
    with "cannot validate empty token", whatever the token verifier would
    say. *)
Theorem validateToken_no_bearer (w : World) (authHeader : string) :
  strings.Contains authHeader "Bearer " = false ->
  validateToken w authHeader = ("", Some "cannot validate empty token").
Proof.
  intros H. unfold validateToken, strings.Split.
  rewrite (splitScan_no_sep _ _ "" H). reflexivity.
Qed.

Lemma validateToken_no_bearer_witness :
  validateToken healthyWorld "bearer token-u1"
  = ("", Some "cannot validate empty token").
Proof.
  apply (validateToken_no_bearer healthyWorld "bearer token-u1"). reflexivity.
Defined.

(** X4: the token verified is the text after the first "Bearer " of the
    header; what precedes that first occurrence is ignored, so the header
    need not start with the scheme. *)
Theorem validateToken_first_bearer (w : World) (pre tok : string) :
  strings.Contains (pre ++ "Bearer") "Bearer " = false ->
  strings.Contains tok "Bearer " = false ->
  validateToken w (pre ++ "Bearer " ++ tok) = verified w tok.
Proof.
  intros Hpre Htok. unfold validateToken, verified.
  rewrite (Split_bearer pre tok Hpre). unfold strings.Split.
  rewrite (splitScan_no_sep _ _ "" Htok).
  cbn [List.length Nat.ltb Nat.leb nth append].
  destruct (JWTToString w tok) as [u err]. reflexivity.
Qed.

Lemma validateToken_first_bearer_witness :
  validateToken healthyWorld ("Basic dTE6cHc= " ++ "Bearer " ++ "token-u1")
  = verified healthyWorld "token-u1".
Proof.
  apply (validateToken_first_bearer healthyWorld "Basic dTE6cHc= " "token-u1");
    reflexivity.
Defined.

(** X5: when "Bearer " occurs again in the header, the token verified is the
    text between the first two occurrences; what follows the second one is
    ignored. *)
Theorem validateToken_second_bearer (w : World) (pre tok rest : string) :
  strings.Contains (pre ++ "Bearer") "Bearer " = false ->
  strings.Contains (tok ++ "Bearer") "Bearer " = false ->
  validateToken w (pre ++ "Bearer " ++ tok ++ "Bearer " ++ rest) = verified w tok.
Proof.
  intros Hpre Htok. unfold validateToken, verified.
  rewrite (Split_bearer pre _ Hpre), (Split_bearer tok rest Htok).
  cbn [List.length Nat.ltb Nat.leb nth].
  destruct (JWTToString w tok) as [u err]. reflexivity.
Qed.

Lemma validateToken_second_bearer_witness :
  validateToken healthyWorld ("" ++ "Bearer " ++ "token-u1" ++ "Bearer " ++ "token-u2")
  = verified healthyWorld "token-u1".
Proof.
  apply (validateToken_second_bearer healthyWorld "" "token-u1" "token-u2");
    reflexivity.
Defined.

(** ** The launcher *)

Lemma notNil_false (err : option error) : notNil err = false -> err = None.
Proof. destruct err; [discriminate|reflexivity]. Qed.

(** X6: a launch runs [which docker-compose], [which docker],
    [docker-compose config] and [docker-compose up -d] in this order and
    stops at the first command that fails; so the service is brought up only
    after both tools were found and the compose document was accepted. *)
Theorem startService_commands (w : World) (s : service) (path : string) :
  commands (trace (startService w s path)) = untilFailure w (launchCommands path).
Proof.
  unfold startService, ValidateSystemRequirements, ValidateDockerCompose,
    launchCommands, untilFailure.
  fold whichCompose whichDocker (composeConfig path) (composeUp path).
  destruct (exitErr (Run w whichCompose)); [reflexivity|].
  destruct (exitErr (Run w whichDocker)); [reflexivity|].
  destruct (exitErr (Run w (composeConfig path))); [reflexivity|].
  destruct (exitErr (Run w (composeUp path))); reflexivity.
Qed.

(** X7: a launch always returns to the handler, and it returns no error
    exactly when the four commands succeed. *)
Theorem startService_succeeds_iff (w : World) (s : service) (path : string) :
  exists err, result (startService w s path) = Returned err
    /\ (err = None <-> allSucceed w (launchCommands path) = true).
Proof.
  unfold startService, ValidateSystemRequirements, ValidateDockerCompose,
    launchCommands, allSucceed.
  fold whichCompose whichDocker (composeConfig path) (composeUp path).
  cbn [forallb].
  destruct (exitErr (Run w whichCompose));
    [eexists; split; [reflexivity|split; discriminate]|].
  destruct (exitErr (Run w whichDocker));
    [eexists; split; [reflexivity|split; discriminate]|].
  destruct (exitErr (Run w (composeConfig path)));
    [eexists; split; [reflexivity|split; discriminate]|].
  destruct (exitErr (Run w (composeUp path)));
    eexists; (split; [reflexivity|split; try discriminate; reflexivity]).
Qed.

(** ** The renderer *)

Lemma Execute_text (s : string) (t : template) (data : list (string * value)) :
  Execute (Text s :: t) data = (s ++ fst (Execute t data), snd (Execute t data)).
Proof. cbn [Execute]. destruct (Execute t data). reflexivity. Qed.

Lemma Execute_field_known (f : string) (v : value) (t : template)
  (data : list (string * value)) :
  field f data = Some v ->
  Execute (Field f :: t) data
  = (printValue v ++ fst (Execute t data), snd (Execute t data)).
Proof. intros H. cbn [Execute]. rewrite H. destruct (Execute t data). reflexivity. Qed.

Lemma Execute_field_unknown (f : string) (t : template) (data : list (string * value)) :
  field f data = None ->
  Execute (Field f :: t) data = ("", Some ("can't evaluate field " ++ f)).
Proof. intros H. cbn [Execute]. now rewrite H. Qed.

(** An execution fails exactly on an action whose field the data lack. *)
Lemma Execute_succeeds_iff (data : list (string * value)) (t : template) :
  snd (Execute t data) = None <-> forall f, In (Field f) t -> field f data <> None.
Proof.
  induction t as [|[s|f] t IH].
  - split; [intros _ f []|reflexivity].
  - rewrite Execute_text. cbn [snd]. rewrite IH. split.
    + intros H f [Hf|Hf]; [discriminate|auto].
    + intros H f Hf. apply H. now right.
  - destruct (field f data) as [v|] eqn:Hv.
    + rewrite (Execute_field_known _ _ _ _ Hv). cbn [snd]. rewrite IH. split.
      * intros H g [Hg|Hg]; [injection Hg as <-; congruence|auto].
      * intros H g Hg. apply H. now right.
    + rewrite (Execute_field_unknown _ _ _ Hv). cbn [snd]. split; [discriminate|].
      intros H. exfalso. apply (H f); [now left|exact Hv].
Qed.

Lemma field_composeData (w : World) (s : service) (f : string) :
  field f (composeData w s) <> None <-> In f composeFields.
Proof.
  unfold composeData, composeFields. cbn [field In].
  repeat match goal with
         | |- context [String.eqb ?a f] =>
             destruct (String.eqb_spec a f); [split; [tauto|discriminate]|]
         end.
  split; [congruence|tauto].
Qed.

(** X8: the execution of a compose template against the data of the
    renderer succeeds exactly when every field action of the template names
    one of Path, UserID, Architecture, Name, Port and Secret. *)
Theorem compose_template_succeeds_iff (w : World) (s : service) (t : template) :
  snd (Execute t (composeData w s)) = None
  <-> forall f, In (Field f) t -> In f composeFields.
Proof.
  rewrite Execute_succeeds_iff. split; intros H f Hf.
  - apply (field_composeData w s), H, Hf.
  - apply (field_composeData w s), H, Hf.
Qed.

(** An execution that succeeds on a first part goes on with the rest. *)
Lemma Execute_app (data : list (string * value)) (t1 t2 : template) :
  snd (Execute t1 data) = None ->
  Execute (t1 ++ t2)%list data
  = (fst (Execute t1 data) ++ fst (Execute t2 data), snd (Execute t2 data)).
Proof.
  induction t1 as [|[s|f] t1 IH]; intros H.
  - cbn. destruct (Execute t2 data). reflexivity.
  - cbn [app]. rewrite !Execute_text in *. cbn [fst snd] in *.
    rewrite (IH H). cbn [fst snd]. now rewrite append_assoc.
  - cbn [app]. destruct (field f data) as [v|] eqn:Hv.
    + rewrite !(Execute_field_known _ _ _ _ Hv) in *. cbn [fst snd] in *.
      rewrite (IH H). cbn [fst snd]. now rewrite append_assoc.
    + rewrite (Execute_field_unknown _ _ _ Hv) in H. discriminate.
Qed.

(** When the destination file cannot be created the renderer panics,
    before it reads the template; the failure is not returned as an
    error. *)
Theorem createDockerComposeFile_create_fails
  (w : World) (path : string) (s : service) (e : error) :
  osCreate w (composeFile w path) = Some e ->
  createDockerComposeFile w path s = ([EvCreate (composeFile w path)], Panicked e).
Proof.
  intros H. unfold createDockerComposeFile, composeFile in *.
  rewrite H. reflexivity.
Qed.

(** X9: when the file is created the renderer returns, and it closes the
    file last on every path.  The file is created before the template is
    read: a template that cannot be parsed leaves the file created and
    nothing written to it.  Otherwise what the execution produced is
    written, also when the execution stopped on an error.  The renderer
    returns no error exactly when parsing and execution succeed. *)
Theorem createDockerComposeFile_created
  (w : World) (path : string) (s : service) :
  osCreate w (composeFile w path) = None ->
  exists err,
    createDockerComposeFile w path s
    = ((EvCreate (composeFile w path) :: EvParseFiles composeTemplate
          :: (if notNil (snd (ParseFiles w composeTemplate)) then []
              else [EvFileWrite (composeFile w path) (composeBytes w s)])
          ++ [EvFileClose (composeFile w path)])%list,
       Returned err)
    /\ (err = None
        <-> snd (ParseFiles w composeTemplate) = None /\ composeError w s = None).
Proof.
  intros H. unfold createDockerComposeFile, composeFile, composeBytes, composeError in *.
  rewrite H. cbn [notNil].
  destruct (ParseFiles w composeTemplate) as [templ [e|]]; cbn [fst snd notNil].
  - eexists. split; [reflexivity|]. split; [discriminate|intros [? _]; discriminate].
  - destruct (Execute templ (composeData w s)) as [bytes [e|]]; cbn [fst snd notNil].
    + eexists. split; [reflexivity|]. split; [discriminate|intros [_ ?]; discriminate].
    + eexists. split; [reflexivity|]. split; auto.
Qed.

(** X10: a compose template that uses a variable the renderer does not pass
    leaves a truncated document: what precedes the action is written, the
    rest is not, and the error names the field. *)
Theorem createDockerComposeFile_unknown_field
  (w : World) (path : string) (s : service) (t1 t2 : template) (f : string) :
  osCreate w (composeFile w path) = None ->
  ParseFiles w composeTemplate = ((t1 ++ Field f :: t2)%list, None) ->
  (forall g, In (Field g) t1 -> In g composeFields) ->
  ~ In f composeFields ->
  createDockerComposeFile w path s
  = ([EvCreate (composeFile w path); EvParseFiles composeTemplate;
      EvFileWrite (composeFile w path) (fst (Execute t1 (composeData w s)));
      EvFileClose (composeFile w path)],
     Returned (Some ("ERROR: executing template file can't evaluate field " ++ f))).
Proof.
  intros Hc Hp H1 Hf. unfold createDockerComposeFile, composeFile in *.
  rewrite Hc, Hp. cbn [notNil bind emit ret fst snd].
  assert (Hok : snd (Execute t1 (composeData w s)) = None).
  { apply Execute_succeeds_iff. intros g Hg.
    apply (field_composeData w s), H1, Hg. }
  assert (Hno : field f (composeData w s) = None).
  { destruct (field f (composeData w s)) eqn:E; [|reflexivity].
    exfalso. apply Hf. apply (field_composeData w s). congruence. }
  rewrite (Execute_app _ _ _ Hok), (Execute_field_unknown _ _ _ Hno).
  cbn [fst snd notNil Error app]. rewrite append_empty_r. reflexivity.
Qed.

Lemma createDockerComposeFile_create_fails_witness :
  createDockerComposeFile readOnlyDisk "/srv/spinup/u1/pg1" sampleService
  = ([EvCreate (composeFile readOnlyDisk "/srv/spinup/u1/pg1")],
     Panicked "open docker-compose.yml: permission denied").
Proof.
  apply (createDockerComposeFile_create_fails readOnlyDisk "/srv/spinup/u1/pg1"
           sampleService "open docker-compose.yml: permission denied").
  reflexivity.
Defined.

Lemma createDockerComposeFile_created_witness :
  exists err,
    createDockerComposeFile healthyWorld "/srv/spinup/u1/pg1" sampleService
    = ((EvCreate composePath :: EvParseFiles composeTemplate
          :: [EvFileWrite composePath "name: u1-pg1; host port: 5432"]
          ++ [EvFileClose composePath])%list,
       Returned err)
    /\ (err = None
        <-> snd (ParseFiles healthyWorld composeTemplate) = None
            /\ composeError healthyWorld sampleService = None).
Proof.
  apply (createDockerComposeFile_created healthyWorld "/srv/spinup/u1/pg1"
           sampleService).
  reflexivity.
Defined.

Lemma createDockerComposeFile_unknown_field_witness :
  createDockerComposeFile passwordTemplateWorld "/srv/spinup/u1/pg1" sampleService
  = ([EvCreate composePath; EvParseFiles composeTemplate;
      EvFileWrite composePath "user: u1 password: ";
      EvFileClose composePath],
     Returned (Some "ERROR: executing template file can't evaluate field Password")).
Proof.
  apply (createDockerComposeFile_unknown_field passwordTemplateWorld
           "/srv/spinup/u1/pg1" sampleService
           passwordTemplateHead passwordTemplateTail "Password").
  - reflexivity.
  - reflexivity.
  - intros g [H|[H|[H|[]]]]; try discriminate.
    injection H as <-. cbn. tauto.
  - cbn. intuition discriminate.
Defined.

(** X11: the preparation of a service returns no error exactly when the
    directory could be made, the compose file created, the template parsed
    and executed. *)
Theorem prepareService_succeeds_iff (w : World) (s : service) (path : string) :
  result (prepareService w s path) = Returned None
  <-> osMkdirAll w path dirMode = None
      /\ osCreate w (composeFile w path) = None
      /\ snd (ParseFiles w composeTemplate) = None
      /\ composeError w s = None.
Proof.
  unfold prepareService, createDockerComposeFile, composeFile, composeError, dirMode.
  destruct (osMkdirAll w path 493) as [e|]; cbn [notNil].
  { split; [discriminate|intros [? _]; discriminate]. }
  destruct (osCreate w (filepathJoin w path "docker-compose.yml")) as [e|];
    cbn [notNil].
  { split; [discriminate|intros [_ [? _]]; discriminate]. }
  destruct (ParseFiles w composeTemplate) as [templ [e|]]; cbn [fst snd notNil].
  { split; [discriminate|intros [_ [_ [? _]]]; discriminate]. }
  destruct (Execute templ (composeData w s)) as [bytes [e|]]; cbn [fst snd notNil].
  { split; [discriminate|intros [_ [_ [_ ?]]]; discriminate]. }
  split; [auto|reflexivity].
Qed.

(** ** The metadata store *)

(** X12: when the store can be opened, the transaction begun, the insertion
    prepared and executed, [updateSqliteDB] returns after one insertion of
    the identifier, name and port of the cluster, and closes the statement,
    then the store.  A failure of the table creation is only logged and a
    failure of the commit is not looked at. *)
Theorem updateSqliteDB_inserts (w : World) (path dbName : string) (data : service) :
  storeFatal w path dbName data = false ->
  updateSqliteDB w path dbName data
  = (([EvSqlOpen (storeFile path dbName); EvDbExec sqlStmt]
        ++ (if notNil (dbExec w sqlStmt)
            then [EvLog (dquote ++ Error (dbExec w sqlStmt) ++ dquote ++ ": "
                           ++ sqlStmt ++ newline)]
            else [])
        ++ [EvDbBegin; EvTxPrepare insertStmt;
            EvStmtExec (ID (Db data)) (Name (Db data)) (Port (Db data));
            EvTxCommit; EvStmtClose; EvDbClose])%list,
     Returned tt).
Proof.
  unfold storeFatal, updateSqliteDB, storeFile. intros H.
  destruct (sqlOpen w "sqlite3" _); [discriminate|].
  destruct (dbBegin w); [discriminate|].
  destruct (txPrepare w insertStmt); [discriminate|].
  destruct (stmtExec w _ _ _); [discriminate|].
  destruct (dbExec w sqlStmt); reflexivity.
Qed.

Lemma updateSqliteDB_inserts_witness :
  updateSqliteDB grumpyStore "/srv/spinup/u1" "u1" recordedService
  = (([EvSqlOpen "/srv/spinup/u1/u1.db"; EvDbExec sqlStmt]
        ++ [EvLog (dquote ++ "disk I/O error" ++ dquote ++ ": " ++ sqlStmt ++ newline)]
        ++ [EvDbBegin; EvTxPrepare insertStmt;
            EvStmtExec "3f2a9c1b7d10" "pg1" 5432;
            EvTxCommit; EvStmtClose; EvDbClose])%list,
     Returned tt).
Proof.
  apply (updateSqliteDB_inserts grumpyStore "/srv/spinup/u1" "u1" recordedService).
  reflexivity.
Defined.

(** X13: [updateSqliteDB] either returns or ends the process with status 1,
    and it ends the process exactly when opening the store, beginning the
    transaction, preparing or executing the insertion fails.  In that case
    nothing is committed and the store is not closed: the deferred calls do
    not run. *)
Theorem updateSqliteDB_exit_iff (w : World) (path dbName : string) (data : service) :
  (result (updateSqliteDB w path dbName data) = Exited 1
   <-> storeFatal w path dbName data = true)
  /\ (result (updateSqliteDB w path dbName data) = Returned tt
      <-> storeFatal w path dbName data = false)
  /\ (storeFatal w path dbName data = true ->
      ~ In EvTxCommit (trace (updateSqliteDB w path dbName data))
      /\ ~ In EvStmtClose (trace (updateSqliteDB w path dbName data))
      /\ ~ In EvDbClose (trace (updateSqliteDB w path dbName data))).
Proof.
  unfold storeFatal, updateSqliteDB, storeFile.
  destruct (sqlOpen w "sqlite3" _); cbn [notNil orb].
  { repeat split; try discriminate; try reflexivity; cbn; intuition discriminate. }
  destruct (dbBegin w); cbn [notNil orb].
  { destruct (dbExec w sqlStmt);
      repeat split; try discriminate; try reflexivity; cbn; intuition discriminate. }
  destruct (txPrepare w insertStmt); cbn [notNil orb].
  { destruct (dbExec w sqlStmt);
      repeat split; try discriminate; try reflexivity; cbn; intuition discriminate. }
  destruct (stmtExec w _ _ _); cbn [notNil orb].
  { destruct (dbExec w sqlStmt);
      repeat split; try discriminate; try reflexivity; cbn; intuition discriminate. }
  destruct (dbExec w sqlStmt);
    repeat split; try discriminate; try reflexivity.
Qed.

(** ** The handler, path by path *)

Lemma bind_panicked {A B} (m : io A) (e : error) (k : A -> io B) :
  result m = Panicked e -> bind m k = (trace m, Panicked e).
Proof. destruct m as [t o]. cbn [result snd]. intros ->. reflexivity. Qed.

Lemma bind_exited {A B} (m : io A) (c : Z) (k : A -> io B) :
  result m = Exited c -> bind m k = (trace m, Exited c).
Proof. destruct m as [t o]. cbn [result snd]. intros ->. reflexivity. Qed.

Lemma CreateService_unreadable_run (w : World) (req : Request) (bytes : string) (e : error) :
  Method req = "POST" ->
  Body req = (bytes, Some e) ->
  CreateService w req =
    ((tokenEvents w req
        ++ [EvReadAll; EvLog ("fatal: reading from readall body " ++ e)])%list,
     Exited 1).
Proof.
  intros Hm Hb. unfold CreateService, tokenEvents.
  rewrite Hm, Hb. cbn [String.eqb Ascii.eqb Bool.eqb negb].
  destruct (validateToken w (Authorization req)) as [userId [err|]]; reflexivity.
Qed.

Lemma CreateService_undecodable_run
  (w : World) (req : Request) (bytes : string) (s : service) (e : error) :
  Method req = "POST" ->
  Body req = (bytes, None) ->
  jsonUnmarshal w bytes zeroService = (s, Some e) ->
  CreateService w req =
    ((tokenEvents w req
        ++ [EvReadAll; EvLog ("fatal: reading from readall body " ++ e)])%list,
     Exited 1).
Proof.
  intros Hm Hb Hd. unfold CreateService, tokenEvents.
  rewrite Hm, Hb. cbn [String.eqb Ascii.eqb Bool.eqb negb].
  destruct (validateToken w (Authorization req)) as [userId [err|]];
    cbn [notNil bind emit ret fst snd]; rewrite Hd; reflexivity.
Qed.

(** The preparation never ends the process, and the launch always returns. *)
Lemma prepareService_no_exit (w : World) (s : service) (path : string) (c : Z) :
  result (prepareService w s path) <> Exited c.
Proof.
  unfold prepareService, createDockerComposeFile.
  destruct (osMkdirAll w path 493); [discriminate|].
  destruct (osCreate w _); [discriminate|].
  destruct (ParseFiles w composeTemplate) as [templ [e|]]; [discriminate|].
  destruct (Execute templ (composeData w s)) as [bytes [e|]]; discriminate.
Qed.

Lemma startService_returns (w : World) (s : service) (path : string) :
  exists err, result (startService w s path) = Returned err.
Proof.
  unfold startService, ValidateSystemRequirements, ValidateDockerCompose.
  destruct (exitErr (Run w ["which"; "docker-compose"])); [eexists; reflexivity|].
  destruct (exitErr (Run w ["which"; "docker"])); [eexists; reflexivity|].
  destruct (exitErr (Run w _)); [eexists; reflexivity|].
  destruct (exitErr (Run w _)); eexists; reflexivity.
Qed.

Section Provisioning.

Variables (w : World) (req : Request) (bytes : string) (s : service).

Hypothesis Hmethod : Method req = "POST".
Hypothesis Hbody : Body req = (bytes, None).
Hypothesis Hdecode : jsonUnmarshal w bytes zeroService = (s, None).
Hypothesis Huser : UserID s = subject w req.
Hypothesis Hengine : Type_ (Db s) = "postgres".

Ltac to_allocation :=
  unfold CreateService, launchedTrace, allocatedTrace, subject, tokenEvents in *;
  rewrite Hmethod, Hbody; cbn [String.eqb Ascii.eqb Bool.eqb negb];
  destruct (validateToken w (Authorization req)) as [userId err];
  cbn [fst snd] in *; rewrite Hdecode;
  apply String.eqb_eq in Huser; rewrite Huser;
  rewrite Hengine; cbn [String.eqb Ascii.eqb Bool.eqb negb notNil];
  rewrite (bind_result _ _ _ (portcheck_result w));
  cbn [fst snd trace result];
  change (setArchitecture (setDbPort s (allocated w)) (architecture w))
    with (staged w s);
  change (projectDir w ++ "/" ++ UserID (staged w s) ++ "/"
            ++ Name (Db (staged w s)))
    with (servicePath w s).

Ltac close_run err :=
  destruct err; cbn [notNil bind emit ret fst snd app];
  rewrite ?app_nil_r, <- ?app_assoc; reflexivity.

(** The rendering panics: so does the handler, without an answer. *)
Lemma CreateService_prepare_panicked (e : error) :
  result (prepareService w (staged w s) (servicePath w s)) = Panicked e ->
  CreateService w req =
    ((allocatedTrace w req
        ++ trace (prepareService w (staged w s) (servicePath w s)))%list,
     Panicked e).
Proof.
  intros Hp. to_allocation.
  rewrite (bind_panicked _ _ _ Hp). cbn [fst snd trace result].
  close_run err.
Qed.

Hypothesis Hprepare :
  result (prepareService w (staged w s) (servicePath w s)) = Returned None.

(** The launch fails: the handler answers with an error and stops. *)
Lemma CreateService_start_failed (e : error) :
  result (startService w (staged w s) (servicePath w s)) = Returned (Some e) ->
  CreateService w req =
    ((allocatedTrace w req
        ++ trace (prepareService w (staged w s) (servicePath w s))
        ++ trace (startService w (staged w s) (servicePath w s))
        ++ [EvLog ("ERROR: starting service for " ++ UserID s ++ " " ++ e);
            EvHttpError "Error starting service" 500])%list,
     Returned tt).
Proof.
  intros Hs. to_allocation.
  rewrite (bind_result _ _ _ Hprepare). cbn [fst snd trace result notNil].
  rewrite (bind_result _ _ _ Hs). cbn [fst snd trace result notNil Error].
  close_run err.
Qed.

Hypothesis Hstart :
  result (startService w (staged w s) (servicePath w s)) = Returned None.

(** The answer cannot be encoded: the handler answers with an error and
    stops before the store. *)
Lemma CreateService_marshal_failed (out body : string) (e : error) :
  CombinedOutput w queryArgv = (out, None) ->
  jsonMarshal w (mkServiceResponse "localhost" (allocated w) out) = (body, Some e) ->
  CreateService w req =
    ((launchedTrace w req s
        ++ [EvLog ("ERROR: marshalling service response struct serviceResponse "
                     ++ e);
            EvHttpError "Internal server error " 500])%list,
     Returned tt).
Proof.
  intros Hq Hj. to_allocation.
  rewrite (bind_result _ _ _ Hprepare). cbn [fst snd trace result notNil].
  rewrite (bind_result _ _ _ Hstart). cbn [fst snd trace result notNil].
  unfold lastContainerID. fold queryArgv. rewrite Hq.
  cbn [notNil bind emit ret fst snd app].
  change (Port (Db (setDbID (staged w s) out))) with (allocated w).
  rewrite Hj.
  close_run err.
Qed.

End Provisioning.

(** ** What the traces of the steps contain *)

Lemma noFinal_app (t1 t2 : list event) :
  existsb finalStep (t1 ++ t2) = existsb finalStep t1 || existsb finalStep t2.
Proof. apply existsb_app. Qed.

Lemma noFinal_tokenEvents (w : World) (req : Request) :
  existsb finalStep (tokenEvents w req) = false.
Proof. unfold tokenEvents. destruct (snd _); reflexivity. Qed.

Lemma noFinal_portscan (w : World) (n : nat) : forall p,
  existsb finalStep (trace (portscan w n p)) = false.
Proof.
  induction n as [|n IH]; intros p; [reflexivity|].
  destruct (probe_cases w p) as [[H _]|[[H _]|[H _]]].
  - rewrite portscan_connected by exact H. cbn [trace fst existsb finalStep dialEvent].
    apply IH.
  - rewrite portscan_refused by exact H. reflexivity.
  - rewrite portscan_other_error by exact H. reflexivity.
Qed.

Lemma noFinal_allocatedTrace (w : World) (req : Request) :
  existsb finalStep (allocatedTrace w req) = false.
Proof.
  unfold allocatedTrace. rewrite !noFinal_app, noFinal_tokenEvents, portcheck_eq.
  rewrite noFinal_portscan. reflexivity.
Qed.

Lemma noFinal_prepareService (w : World) (s : service) (path : string) :
  existsb finalStep (trace (prepareService w s path)) = false.
Proof.
  unfold prepareService, createDockerComposeFile.
  destruct (osMkdirAll w path 493); [reflexivity|].
  destruct (osCreate w _); [reflexivity|].
  destruct (ParseFiles w composeTemplate) as [templ [e|]]; [reflexivity|].
  destruct (Execute templ (composeData w s)) as [bytes [e|]]; reflexivity.
Qed.

Lemma noFinal_startService (w : World) (s : service) (path : string) :
  existsb finalStep (trace (startService w s path)) = false.
Proof.
  unfold startService, ValidateSystemRequirements, ValidateDockerCompose.
  destruct (exitErr (Run w ["which"; "docker-compose"])); [reflexivity|].
  destruct (exitErr (Run w ["which"; "docker"])); [reflexivity|].
  destruct (exitErr (Run w _)); [reflexivity|].
  destruct (exitErr (Run w _)); reflexivity.
Qed.

Lemma noFinal_launchedTrace (w : World) (req : Request) (s : service) :
  existsb finalStep (launchedTrace w req s) = false.
Proof.
  unfold launchedTrace.
  rewrite !noFinal_app, noFinal_allocatedTrace, noFinal_prepareService,
    noFinal_startService.
  reflexivity.
Qed.

Lemma prepareService_panics_iff (w : World) (s : service) (path : string) (e : error) :
  result (prepareService w s path) = Panicked e
  <-> osMkdirAll w path dirMode = None /\ osCreate w (composeFile w path) = Some e.
Proof.
  unfold prepareService, createDockerComposeFile, composeFile, dirMode.
  destruct (osMkdirAll w path 493) as [e1|]; cbn [notNil].
  { split; [discriminate|intros [? _]; discriminate]. }
  destruct (osCreate w (filepathJoin w path "docker-compose.yml")) as [e2|];
    cbn [notNil Error].
  { cbn. split; [intros H; injection H as <-; auto|intros [_ H]; now injection H as <-]. }
  destruct (ParseFiles w composeTemplate) as [templ [e3|]];
    [split; [discriminate|intros [_ ?]; discriminate]|].
  destruct (Execute templ (composeData w s)) as [b [e4|]];
    split; try discriminate; intros [_ ?]; discriminate.
Qed.

(** The store step and the answer. *)
Lemma persistAndAnswer_stored (w : World) (s : service) (out body : string) :
  storeFatal w (tenantDir w s) (UserID s) (recorded w s out) = false ->
  result (persistAndAnswer w s out body) = Returned tt
  /\ exists t, existsb finalStep t = false
       /\ trace (persistAndAnswer w s out body)
          = (t ++ [EvStmtExec out (Name (Db s)) (allocated w);
                   EvTxCommit; EvStmtClose; EvDbClose; EvResponseWrite body])%list.
Proof.
  unfold storeFatal, persistAndAnswer, tenantDir, recorded, storeFile, updateSqliteDB.
  intros H.
  change (ID (Db (setDbID (staged w s) out))) with out in *.
  change (Name (Db (setDbID (staged w s) out))) with (Name (Db s)) in *.
  change (Port (Db (setDbID (staged w s) out))) with (allocated w) in *.
  destruct (sqlOpen w "sqlite3" _); [discriminate|].
  destruct (dbBegin w); [discriminate|].
  destruct (txPrepare w insertStmt); [discriminate|].
  destruct (stmtExec w _ _ _); [discriminate|].
  destruct (dbExec w sqlStmt); (split; [reflexivity|]).
  - exists [EvSqlOpen (tenantDir w s ++ "/" ++ UserID s ++ ".db"); EvDbExec sqlStmt;
            EvLog (dquote ++ e ++ dquote ++ ": " ++ sqlStmt ++ newline);
            EvDbBegin; EvTxPrepare insertStmt].
    split; reflexivity.
  - exists [EvSqlOpen (tenantDir w s ++ "/" ++ UserID s ++ ".db"); EvDbExec sqlStmt;
            EvDbBegin; EvTxPrepare insertStmt].
    split; reflexivity.
Qed.

Lemma persistAndAnswer_fatal (w : World) (s : service) (out body : string) :
  storeFatal w (tenantDir w s) (UserID s) (recorded w s out) = true ->
  result (persistAndAnswer w s out body) = Exited 1
  /\ forall b, ~ In (EvResponseWrite b) (trace (persistAndAnswer w s out body)).
Proof.
  unfold storeFatal, persistAndAnswer, tenantDir, recorded, storeFile, updateSqliteDB.
  intros H.
  destruct (sqlOpen w "sqlite3" _); cbn [notNil orb] in H.
  { split; [reflexivity|]. cbn. intros b. intuition discriminate. }
  destruct (dbBegin w); cbn [notNil orb] in H.
  { destruct (dbExec w sqlStmt); (split; [reflexivity|]);
      cbn; intros b; intuition discriminate. }
  destruct (txPrepare w insertStmt); cbn [notNil orb] in H.
  { destruct (dbExec w sqlStmt); (split; [reflexivity|]);
      cbn; intros b; intuition discriminate. }
  destruct (stmtExec w _ _ _); cbn [notNil orb] in H; [|discriminate].
  destruct (dbExec w sqlStmt); (split; [reflexivity|]);
    cbn; intros b; intuition discriminate.
Qed.

(** Every insertion of the store step is the one of the recorded request. *)
Lemma persistAndAnswer_records (w : World) (s : service) (out body : string)
  (i n : string) (p : Z) :
  In (EvStmtExec i n p) (trace (persistAndAnswer w s out body)) ->
  i = out /\ n = Name (Db s) /\ p = allocated w.
Proof.
  unfold persistAndAnswer, updateSqliteDB.
  change (ID (Db (setDbID (staged w s) out))) with out in *.
  change (Name (Db (setDbID (staged w s) out))) with (Name (Db s)) in *.
  change (Port (Db (setDbID (staged w s) out))) with (allocated w) in *.
  destruct (sqlOpen w "sqlite3" _); [cbn; intuition discriminate|].
  destruct (dbExec w sqlStmt), (dbBegin w); try (cbn; intuition discriminate);
    destruct (txPrepare w insertStmt); try (cbn; intuition discriminate);
    destruct (stmtExec w _ _ _); cbn;
    intros H; repeat (destruct H as [H|H]; try discriminate; try contradiction);
    injection H as <- <- <-; auto.
Qed.

(** Every run of the handler is of one of four kinds. *)
Lemma CreateService_cases (w : World) (req : Request) :
  (result (CreateService w req) = Returned tt
   /\ existsb finalStep (trace (CreateService w req)) = false)
  \/ (result (CreateService w req) = Exited 1
      /\ existsb finalStep (trace (CreateService w req)) = false
      /\ Method req = "POST" /\ badBody w req)
  \/ (exists s e, result (CreateService w req) = Panicked e
        /\ existsb finalStep (trace (CreateService w req)) = false
        /\ validated w req s
        /\ result (prepareService w (staged w s) (servicePath w s)) = Panicked e)
  \/ (exists s out body, reachesStore w req s out body
        /\ CreateService w req
           = ((launchedTrace w req s ++ trace (persistAndAnswer w s out body))%list,
              result (persistAndAnswer w s out body))).
Proof.
  destruct (string_dec (Method req) "POST") as [Hm|Hm];
    [|left; rewrite (CreateService_wrong_method w req Hm); split; reflexivity].
  destruct (Body req) as [bytes [e|]] eqn:Hb.
  { right; left. rewrite (CreateService_unreadable_run w req bytes e Hm Hb).
    cbn [result trace fst snd]. rewrite noFinal_app, noFinal_tokenEvents.
    repeat split; auto. exists bytes, e. now left. }
  destruct (jsonUnmarshal w bytes zeroService) as [s [e|]] eqn:Hd.
  { right; left. rewrite (CreateService_undecodable_run w req bytes s e Hm Hb Hd).
    cbn [result trace fst snd]. rewrite noFinal_app, noFinal_tokenEvents.
    repeat split; auto. exists bytes, e. right. split; [exact Hb|]. now exists s. }
  destruct (string_dec (UserID s) (subject w req)) as [Hu|Hu];
    [|left; rewrite (CreateService_mismatch_run w req bytes s Hm Hb Hd Hu);
      cbn [result trace fst snd]; rewrite noFinal_app, noFinal_tokenEvents;
      split; reflexivity].
  destruct (string_dec (Type_ (Db s)) "postgres") as [He|He];
    [|left; rewrite (CreateService_unsupported_run w req bytes s Hm Hb Hd Hu He);
      cbn [result trace fst snd]; rewrite noFinal_app, noFinal_tokenEvents;
      split; reflexivity].
  assert (Hv : validated w req s).
  { split; [exact Hm|]. split; [exists bytes; auto|]. auto. }
  destruct (result (prepareService w (staged w s) (servicePath w s)))
    as [[e|]|c|e] eqn:Hp.
  - left. rewrite (CreateService_prepare_failed w req bytes s Hm Hb Hd Hu He e Hp).
    cbn [result trace fst snd].
    rewrite !noFinal_app, noFinal_allocatedTrace, noFinal_prepareService.
    split; reflexivity.
  - destruct (startService_returns w (staged w s) (servicePath w s)) as [[e|] Hs].
    + left.
      rewrite (CreateService_start_failed w req bytes s Hm Hb Hd Hu He Hp e Hs).
      cbn [result trace fst snd].
      rewrite !noFinal_app, noFinal_allocatedTrace, noFinal_prepareService,
        noFinal_startService.
      split; reflexivity.
    + destruct (CombinedOutput w queryArgv) as [out [e|]] eqn:Hq.
      * left.
        rewrite (CreateService_lookup_failed w req bytes s Hm Hb Hd Hu He Hp Hs
                   out e Hq).
        cbn [result trace fst snd]. rewrite noFinal_app, noFinal_launchedTrace.
        split; reflexivity.
      * destruct (jsonMarshal w (mkServiceResponse "localhost" (allocated w) out))
          as [body [e|]] eqn:Hj.
        -- left.
           rewrite (CreateService_marshal_failed w req bytes s Hm Hb Hd Hu He Hp Hs
                      out body e Hq Hj).
           cbn [result trace fst snd]. rewrite noFinal_app, noFinal_launchedTrace.
           split; reflexivity.
        -- right; right; right. exists s, out, body. split.
           ++ unfold reachesStore. repeat split; auto. exists bytes; auto.
           ++ apply (CreateService_lookup_succeeded w req bytes s Hm Hb Hd Hu He
                       Hp Hs out body Hq Hj).
  - exfalso. exact (prepareService_no_exit _ _ _ _ Hp).
  - right; right; left. exists s, e.
    rewrite (CreateService_prepare_panicked w req bytes s Hm Hb Hd Hu He e Hp).
    cbn [result trace fst snd].
    rewrite noFinal_app, noFinal_allocatedTrace, noFinal_prepareService.
    split; [reflexivity|]. split; [reflexivity|]. split; [exact Hv|exact Hp].
Qed.

Lemma noFinal_In (t : list event) (e : event) :
  existsb finalStep t = false -> In e t -> finalStep e = false.
Proof.
  intros H Hin. destruct (finalStep e) eqn:He; [|reflexivity].
  assert (existsb finalStep t = true) by (apply existsb_exists; eauto).
  congruence.
Qed.

Lemma quiet_allowed (w : World) (req : Request) (t : list event) :
  quiet t = true -> quiet (tokenEvents w req ++ t) = true.
Proof. intros H. now rewrite quiet_app, quiet_tokenEvents. Qed.

(** ** The handler as a whole *)



(** X15: a cluster record is inserted only after validation, rendering,
    launch, container query and encoding succeeded, and it carries the
    identifier printed by the engine, the name of the requested database and
    the port returned by the allocator. *)
Theorem CreateService_record (w : World) (req : Request) (i n : string) (p : Z) :
  In (EvStmtExec i n p) (trace (CreateService w req)) ->
  exists s body,
    reachesStore w req s i body /\ n = Name (Db s) /\ p = allocated w.
Proof.
  intros Hin.
  destruct (CreateService_cases w req)
    as [[_ Hn]|[[_ [Hn _]]|[[s [e [_ [Hn _]]]]|[s [out [body0 [Hr Hrun]]]]]]];
    try (apply (noFinal_In _ _ Hn) in Hin; discriminate).
  rewrite Hrun in Hin. cbn [trace fst] in Hin.
  apply in_app_or in Hin. destruct Hin as [Hin|Hin].
  { apply (noFinal_In _ _ (noFinal_launchedTrace w req s)) in Hin. discriminate. }
  destruct (persistAndAnswer_records _ _ _ _ _ _ _ Hin) as [-> [-> ->]].
  exists s, body0. auto.
Qed.

Lemma CreateService_record_witness :
  exists s body,
    reachesStore allListening u1Request s containerID1 body
    /\ "pg1" = Name (Db s) /\ 0 = allocated allListening.
Proof.
  apply (CreateService_record allListening u1Request containerID1 "pg1" 0).
  vm_compute. tauto.
Defined.

(** X16: the handler ends the process, always with status 1, in exactly two
    situations: the body of a POST cannot be read or decoded, or a request
    that passed every earlier step meets a store that cannot be opened,
    begin a transaction, prepare or execute the insertion. *)
Theorem CreateService_exits_iff (w : World) (req : Request) (c : Z) :
  result (CreateService w req) = Exited c
  <-> c = 1
      /\ ((Method req = "POST" /\ badBody w req)
          \/ exists s out body,
               reachesStore w req s out body
               /\ storeFatal w (tenantDir w s) (UserID s) (recorded w s out) = true).
Proof.
  split.
  - intros H.
    destruct (CreateService_cases w req)
      as [[Hr _]|[[Hr [_ [Hm Hb]]]|[[s [e [Hr _]]]|[s [out [body [Hr Hrun]]]]]]];
      try congruence.
    + split; [congruence|]. left. auto.
    + rewrite Hrun in H. cbn [result snd] in H.
      destruct (storeFatal w (tenantDir w s) (UserID s) (recorded w s out)) eqn:Hf.
      * destruct (persistAndAnswer_fatal w s out body Hf) as [Hx _].
        split; [congruence|]. right. exists s, out, body. auto.
      * destruct (persistAndAnswer_stored w s out body Hf) as [Hx _]. congruence.
  - intros [-> [[Hm [bytes [e [Hb|[Hb [s Hd]]]]]]|[s [out [body [Hr Hf]]]]]].
    + now rewrite (CreateService_unreadable_run w req bytes e Hm Hb).
    + now rewrite (CreateService_undecodable_run w req bytes s e Hm Hb Hd).
    + destruct Hr as [Hm [[bytes [Hb Hd]] [Hu [He [Hp [Hs [Hq Hj]]]]]]].
      rewrite (CreateService_lookup_succeeded w req bytes s Hm Hb Hd Hu He Hp Hs
                 out body Hq Hj).
      apply (persistAndAnswer_fatal w s out body Hf).
Qed.

(** X17: the handler panics exactly when a request that passed the
    validation has its directory made and its compose file refused by the
    file system; the panic carries the error of the creation. *)
Theorem CreateService_panics_iff (w : World) (req : Request) (e : error) :
  result (CreateService w req) = Panicked e
  <-> exists s, validated w req s
        /\ osMkdirAll w (servicePath w s) dirMode = None
        /\ osCreate w (composeFile w (servicePath w s)) = Some e.
Proof.
  split.
  - intros H.
    destruct (CreateService_cases w req)
      as [[Hr _]|[[Hr _]|[[s [e0 [Hr [_ [Hv Hp]]]]]|[s [out [body [Hr Hrun]]]]]]];
      try congruence.
    + assert (e0 = e) by congruence. subst e0.
      exists s. split; [exact Hv|]. now apply prepareService_panics_iff in Hp.
    + rewrite Hrun in H. cbn [result snd] in H.
      destruct (storeFatal w (tenantDir w s) (UserID s) (recorded w s out)) eqn:Hf.
      * destruct (persistAndAnswer_fatal w s out body Hf) as [Hx _]. congruence.
      * destruct (persistAndAnswer_stored w s out body Hf) as [Hx _]. congruence.
  - intros [s [[Hm [[bytes [Hb Hd]] [Hu He]]] [Hmk Hc]]].
    assert (Hp : result (prepareService w (staged w s) (servicePath w s)) = Panicked e)
      by (apply prepareService_panics_iff; auto).
    now rewrite (CreateService_prepare_panicked w req bytes s Hm Hb Hd Hu He e Hp).
Qed.

(** X18: the handler acts on the host (probes a port, touches the file
    system, runs a command, opens the store) only for a POST whose body
    decodes to a request of the subject of the token for postgres. *)
Theorem CreateService_effects_need_validation (w : World) (req : Request) :
  quiet (trace (CreateService w req)) = false ->
  exists s, validated w req s.
Proof.
  intros H.
  destruct (string_dec (Method req) "POST") as [Hm|Hm];
    [|rewrite (CreateService_wrong_method w req Hm) in H; discriminate].
  destruct (Body req) as [bytes [e|]] eqn:Hb.
  { rewrite (CreateService_unreadable_run w req bytes e Hm Hb) in H.
    cbn [trace fst] in H. rewrite quiet_allowed in H; [discriminate|reflexivity]. }
  destruct (jsonUnmarshal w bytes zeroService) as [s [e|]] eqn:Hd.
  { rewrite (CreateService_undecodable_run w req bytes s e Hm Hb Hd) in H.
    cbn [trace fst] in H. rewrite quiet_allowed in H; [discriminate|reflexivity]. }
  destruct (string_dec (UserID s) (subject w req)) as [Hu|Hu].
  2:{ rewrite (CreateService_mismatch_run w req bytes s Hm Hb Hd Hu) in H.
      cbn [trace fst] in H. rewrite quiet_allowed in H; [discriminate|reflexivity]. }
  destruct (string_dec (Type_ (Db s)) "postgres") as [He|He].
  2:{ rewrite (CreateService_unsupported_run w req bytes s Hm Hb Hd Hu He) in H.
      cbn [trace fst] in H. rewrite quiet_allowed in H; [discriminate|reflexivity]. }
  exists s. split; [exact Hm|]. split; [exists bytes; auto|auto].
Qed.

Lemma CreateService_effects_need_validation_witness :
  exists s, validated healthyWorld u1Request s.
Proof.
  apply (CreateService_effects_need_validation healthyWorld u1Request).
  reflexivity.
Defined.

Lemma updateSqliteDB_exit_iff_witness :
  ~ In EvTxCommit (trace (updateSqliteDB storeCannotPrepare "/srv/spinup/u1" "u1"
                            recordedService))
  /\ ~ In EvStmtClose (trace (updateSqliteDB storeCannotPrepare "/srv/spinup/u1" "u1"
                                recordedService))
  /\ ~ In EvDbClose (trace (updateSqliteDB storeCannotPrepare "/srv/spinup/u1" "u1"
                              recordedService)).
Proof.
  apply (proj2 (proj2 (updateSqliteDB_exit_iff storeCannotPrepare "/srv/spinup/u1"
                         "u1" recordedService))).
  reflexivity.
Defined.

(** ** decodeJSONBody *)

Lemma dropChars_append (p s : string) : Helpers.dropChars (String.length p) (p ++ s) = s.
Proof. induction p as [|c p IH]; [destruct s; reflexivity|exact IH]. Qed.

(** Cutting a prefix off what starts with it gives back the rest. *)
Lemma TrimPrefix_append (p s : string) : Helpers.TrimPrefix (p ++ s) p = s.
Proof.
  unfold Helpers.TrimPrefix, Helpers.HasPrefix. now rewrite prefix_append, dropChars_append.
Qed.

(** X19: a body is accepted exactly when the Content-Type header is absent
    or names JSON, the first decoding succeeds and the second one meets the
    end of the body: an empty body, a second JSON value or trailing text
    are refused. *)
Theorem decodeJSONBody_accepts_iff (quote mediaType : string -> string)
  (contentType : string) (first second : option Helpers.decodeErr) :
  Helpers.decodeJSONBody quote mediaType contentType first second = None
  <-> Helpers.wrongContentType mediaType contentType = false
      /\ first = None /\ second = Some Helpers.EOF.
Proof.
  unfold Helpers.decodeJSONBody, Helpers.wrongContentType.
  destruct (negb (contentType =? "") && negb (mediaType contentType =? "application/json")).
  { split; [discriminate|intros [? _]; discriminate]. }
  destruct first as [err|].
  - split; [|intros [_ [? _]]; discriminate].
    destruct err; try discriminate;
      cbn [Helpers.decodeErrText Helpers.isEOF];
      repeat match goal with
             | |- context [if ?b then _ else _] => destruct b
             end; discriminate.
  - destruct second as [[]|]; split; try discriminate; auto;
      intros [_ [_ ?]]; discriminate.
Qed.

(** X20: a refusal the function words itself carries 415, 413 or 400: 415
    exactly when the Content-Type header is present and does not name JSON,
    whatever the body holds; 413 only when the decoder reports a body cut off
    by the size limit; 400 otherwise. *)
Theorem decodeJSONBody_statuses (quote mediaType : string -> string)
  (contentType : string) (first second : option Helpers.decodeErr) (mr : Helpers.malformedRequest) :
  Helpers.decodeJSONBody quote mediaType contentType first second = Some (Helpers.Malformed mr) ->
  (Helpers.status mr = Helpers.StatusUnsupportedMediaType
   /\ Helpers.wrongContentType mediaType contentType = true)
  \/ (Helpers.status mr = Helpers.StatusRequestEntityTooLarge
      /\ Helpers.wrongContentType mediaType contentType = false
      /\ exists err, first = Some err
           /\ Helpers.decodeErrText err = "http: request body too large")
  \/ (Helpers.status mr = Helpers.StatusBadRequest
      /\ Helpers.wrongContentType mediaType contentType = false).
Proof.
  unfold Helpers.decodeJSONBody, Helpers.wrongContentType.
  destruct (negb (contentType =? "") && negb (mediaType contentType =? "application/json")).
  { intros H. injection H as <-. left. split; reflexivity. }
  destruct first as [err|].
  - destruct err; cbn [Helpers.decodeErrText Helpers.isEOF];
      try (intros H; injection H as <-; right; right; split; reflexivity).
    destruct (Helpers.HasPrefix text "json: unknown field ").
    { intros H; injection H as <-; right; right; split; reflexivity. }
    destruct (String.eqb_spec text "http: request body too large") as [->|Hne].
    + intros H; injection H as <-. right; left.
      split; [reflexivity|]. split; [reflexivity|].
      eexists. split; reflexivity.
    + discriminate.
  - destruct second as [[]|]; try discriminate;
      intros H; injection H as <-; right; right; split; reflexivity.
Qed.

Lemma decodeJSONBody_statuses_witness :
  (Helpers.status (Helpers.mkMalformedRequest Helpers.StatusUnsupportedMediaType
             "Content-Type header is not application/json")
   = Helpers.StatusUnsupportedMediaType
   /\ Helpers.wrongContentType beforeSemicolon "text/plain; charset=utf-8" = true)
  \/ (Helpers.status (Helpers.mkMalformedRequest Helpers.StatusUnsupportedMediaType
                "Content-Type header is not application/json")
      = Helpers.StatusRequestEntityTooLarge
      /\ Helpers.wrongContentType beforeSemicolon "text/plain; charset=utf-8" = false
      /\ exists err, @None Helpers.decodeErr = Some err
           /\ Helpers.decodeErrText err = "http: request body too large")
  \/ (Helpers.status (Helpers.mkMalformedRequest Helpers.StatusUnsupportedMediaType
                "Content-Type header is not application/json")
      = Helpers.StatusBadRequest
      /\ Helpers.wrongContentType beforeSemicolon "text/plain; charset=utf-8" = false).
Proof.
  apply (decodeJSONBody_statuses goQuote beforeSemicolon
           "text/plain; charset=utf-8" None (Some Helpers.EOF)).
  reflexivity.
Defined.

(** X21: for a body with a field the destination does not have (the decoder
    says "json: unknown field" and the quoted name), the refusal is a 400
    whose message ends with that quoted name. *)
Theorem decodeJSONBody_unknown_field (quote mediaType : string -> string)
  (contentType : string) (second : option Helpers.decodeErr) (name : string) :
  Helpers.wrongContentType mediaType contentType = false ->
  Helpers.decodeJSONBody quote mediaType contentType
    (Some (Helpers.OtherError ("json: unknown field " ++ name))) second
  = Some (Helpers.Malformed (Helpers.mkMalformedRequest Helpers.StatusBadRequest
            ("Request body contains unknown field " ++ name))).
Proof.
  unfold Helpers.decodeJSONBody, Helpers.wrongContentType. intros ->.
  cbn [Helpers.decodeErrText]. unfold Helpers.HasPrefix at 1.
  now rewrite prefix_append, TrimPrefix_append.
Qed.

Lemma decodeJSONBody_unknown_field_witness :
  Helpers.decodeJSONBody goQuote beforeSemicolon "application/json"
    (Some (Helpers.OtherError ("json: unknown field " ++ goQuote "owner"))) None
  = Some (Helpers.Malformed (Helpers.mkMalformedRequest Helpers.StatusBadRequest
            ("Request body contains unknown field " ++ goQuote "owner"))).
Proof.
  apply (decodeJSONBody_unknown_field goQuote beforeSemicolon "application/json"
           None (goQuote "owner")).
  reflexivity.
Defined.

(** ** randSeq *)

Lemma letterAt_letter (idx : Z) :
  0 <= idx < 52 -> exists r, letterAt idx = Some r /\ isLetter r = true.
Proof.
  intros H. unfold letterAt.
  destruct (Z.ltb_spec idx 0) as [Hlt|_]; [lia|].
  assert (Hn : (Z.to_nat idx < 52)%nat) by lia.
  generalize dependent (Z.to_nat idx). intros k Hk.
  do 52 (destruct k as [|k]; [eexists; split; reflexivity|]).
  lia.
Qed.

Lemma fillRunes_letters (Intn : nat -> Z -> Z) (count : nat) : forall i,
  (forall j, 0 <= Intn j 52 < 52) ->
  exists b, fillRunes Intn count i = Returned b
    /\ String.length b = count /\ allLetters b = true.
Proof.
  induction count as [|count IH]; intros i H.
  - exists "". repeat split.
  - cbn [fillRunes]. change (Z.of_nat (String.length letters)) with 52.
    destruct (letterAt_letter _ (H i)) as [r [Hr Hl]]. rewrite Hr.
    destruct (IH (S i) H) as [b [Hb [Hlen Hall]]]. rewrite Hb.
    exists (String r b). cbn [String.length allLetters].
    rewrite Hlen, Hl, Hall. repeat split.
Qed.

(** X22: for a length that is not negative and a random source that keeps
    its bound, [randSeq] returns a string of exactly that length, made of
    ASCII letters only. *)
Theorem randSeq_letters (Intn : nat -> Z -> Z) (n : Z) :
  0 <= n ->
  (forall j, 0 <= Intn j 52 < 52) ->
  exists b, randSeq Intn n = Returned b
    /\ Z.of_nat (String.length b) = n /\ allLetters b = true.
Proof.
  intros Hn H. unfold randSeq.
  destruct (Z.ltb_spec n 0) as [Hlt|_]; [lia|].
  destruct (fillRunes_letters Intn (Z.to_nat n) 0%nat H) as [b [Hb [Hlen Hall]]].
  exists b. repeat split; auto. lia.
Qed.

Lemma randSeq_letters_witness :
  exists b, randSeq countingIntn 10 = Returned b
    /\ Z.of_nat (String.length b) = 10 /\ allLetters b = true.
Proof.
  apply (randSeq_letters countingIntn 10).
  - lia.
  - intros j. unfold countingIntn. apply Z.mod_pos_bound. lia.
Defined.

(** ** init *)

Lemma bind_returned_inv {A B} (m : io A) (k : A -> io B) (b : B) :
  result (bind m k) = Returned b ->
  exists a, result m = Returned a /\ result (k a) = Returned b.
Proof.
  destruct m as [t [a| |]]; unfold bind; cbn [result fst snd];
    [eauto|discriminate|discriminate].
Qed.

(** X23: whatever [fatal] does, when [init] returns, the four variables
    SPINUP_PROJECT_DIR, ARCHITECTURE, CF_AUTHORIZATION_TOKEN and CF_ZONE_ID
    were set (possibly to the empty string), the package variables hold
    their values, and the client was created from the token. *)
Theorem init_returns_config (st : Startup) (cfg : Config) :
  result (init st) = Returned cfg ->
  LookupEnv st "SPINUP_PROJECT_DIR" = Some (cfgProjectDir cfg)
  /\ LookupEnv st "ARCHITECTURE" = Some (cfgArchitecture cfg)
  /\ LookupEnv st "CF_AUTHORIZATION_TOKEN" = Some (cfgAuthToken cfg)
  /\ LookupEnv st "CF_ZONE_ID" = Some (cfgZoneID cfg)
  /\ NewWithAPIToken st (cfgAuthToken cfg) = None.
Proof.
  unfold init.
  destruct (LookupEnv st "SPINUP_PROJECT_DIR") as [d|]; [|discriminate].
  destruct (LookupEnv st "ARCHITECTURE") as [a|]; [|discriminate].
  destruct (LookupEnv st "CF_AUTHORIZATION_TOKEN") as [t|]; [|discriminate].
  destruct (LookupEnv st "CF_ZONE_ID") as [z|]; [|discriminate].
  destruct (NewWithAPIToken st t) as [e|] eqn:Hc; [discriminate|].
  cbn [notNil].
  destruct (ReadFile st (d ++ "/app.rsa")) as [signBytes e1].
  intros H.
  apply bind_returned_inv in H. destruct H as [_ [_ H]].
  apply bind_returned_inv in H. destruct H as [_ [_ H]].
  destruct (ReadFile st (d ++ "/app.rsa.pub")) as [verifyBytes e2].
  apply bind_returned_inv in H. destruct H as [_ [_ H]].
  apply bind_returned_inv in H. destruct H as [_ [_ H]].
  cbn in H. injection H as <-. cbn. auto.
Qed.

Lemma init_returns_config_witness :
  LookupEnv fullStartup "SPINUP_PROJECT_DIR" = Some "/Your/Project/Dir"
  /\ LookupEnv fullStartup "ARCHITECTURE" = Some "architecture"
  /\ LookupEnv fullStartup "CF_AUTHORIZATION_TOKEN" = Some "cf-token"
  /\ LookupEnv fullStartup "CF_ZONE_ID" = Some ""
  /\ NewWithAPIToken fullStartup "cf-token" = None.
Proof.
  apply (init_returns_config fullStartup
           (mkConfig "/Your/Project/Dir" "architecture" "cf-token" "")).
  reflexivity.
Defined.

(** X24: when one of the four variables is not set, [init] ends the process
    with status 1 after one log line that names the first of them, in the
    order SPINUP_PROJECT_DIR, ARCHITECTURE, CF_AUTHORIZATION_TOKEN,
    CF_ZONE_ID; nothing else is read.  The environment of the README, which
    does not set CF_AUTHORIZATION_TOKEN, is such a case. *)
Theorem init_missing_variable (st : Startup) (name : string) :
  firstMissing (LookupEnv st) requiredEnv = Some name ->
  init st = ([EvLog ("FATAL: getting environment variable " ++ name)], Exited 1).
Proof.
  unfold init, requiredEnv, firstMissing.
  destruct (LookupEnv st "SPINUP_PROJECT_DIR") as [d|];
    [|intros H; injection H as <-; reflexivity].
  destruct (LookupEnv st "ARCHITECTURE") as [a|];
    [|intros H; injection H as <-; reflexivity].
  destruct (LookupEnv st "CF_AUTHORIZATION_TOKEN") as [t|];
    [|intros H; injection H as <-; reflexivity].
  destruct (LookupEnv st "CF_ZONE_ID") as [z|];
    [discriminate|intros H; injection H as <-; reflexivity].
Qed.

Lemma init_missing_variable_witness :
  init readmeStartup
  = ([EvLog ("FATAL: getting environment variable " ++ "CF_AUTHORIZATION_TOKEN")],
     Exited 1).
Proof.
  apply (init_missing_variable readmeStartup "CF_AUTHORIZATION_TOKEN").
  reflexivity.
Defined.

(** ** The other renderers *)

(** X25: when their files can be created, [createDockerfile] and
    [createConfigfile] return; each creates its file ([Dockerfile],
    [config.yaml] of the service directory) before it reads its own
    template, sends to it what the execution of the template on the request
    produced (nothing when the template cannot be parsed, the output up to
    the error when the execution fails), and closes it last on every path.
    Each returns no error exactly when its template was parsed and
    executed. *)
Theorem createDockerfile_createConfigfile_created
  (w : World) (serviceFields : service -> list (string * value))
  (path : string) (s : service) :
  osCreate w (filepathJoin w path "Dockerfile") = None ->
  osCreate w (filepathJoin w path "config.yaml") = None ->
  (exists err,
     createDockerfile w serviceFields path s
     = (renderRun w serviceFields (filepathJoin w path "Dockerfile")
          "Dockerfile-template" s,
        Returned err)
     /\ (err = None
         <-> snd (ParseFiles w "Dockerfile-template") = None
             /\ renderError w serviceFields "Dockerfile-template" s = None))
  /\ (exists err,
       createConfigfile w serviceFields path s
       = (renderRun w serviceFields (filepathJoin w path "config.yaml")
            "config-template.yaml" s,
          Returned err)
       /\ (err = None
           <-> snd (ParseFiles w "config-template.yaml") = None
               /\ renderError w serviceFields "config-template.yaml" s = None)).
Proof.
  intros Hd Hc.
  unfold createDockerfile, createConfigfile, renderRun, renderedBytes, renderError.
  rewrite Hd, Hc. cbn [notNil]. split.
  - destruct (ParseFiles w "Dockerfile-template") as [templ [e|]];
      cbn [fst snd notNil].
    { eexists. split; [reflexivity|].
      split; [discriminate|intros [? _]; discriminate]. }
    destruct (Execute templ (serviceFields s)) as [bytes [e|]];
      cbn [fst snd notNil].
    + eexists. split; [reflexivity|].
      split; [discriminate|intros [_ ?]; discriminate].
    + eexists. split; [reflexivity|]. split; auto.
  - destruct (ParseFiles w "config-template.yaml") as [templ [e|]];
      cbn [fst snd notNil].
    { eexists. split; [reflexivity|].
      split; [discriminate|intros [? _]; discriminate]. }
    destruct (Execute templ (serviceFields s)) as [bytes [e|]];
      cbn [fst snd notNil].
    + eexists. split; [reflexivity|].
      split; [discriminate|intros [_ ?]; discriminate].
    + eexists. split; [reflexivity|]. split; auto.
Qed.

Lemma createDockerfile_createConfigfile_created_witness :
  (exists err,
     createDockerfile healthyWorld sampleFields "/srv/spinup/u1/pg1" sampleService
     = (renderRun healthyWorld sampleFields
          (filepathJoin healthyWorld "/srv/spinup/u1/pg1" "Dockerfile")
          "Dockerfile-template" sampleService,
        Returned err)
     /\ (err = None
         <-> snd (ParseFiles healthyWorld "Dockerfile-template") = None
             /\ renderError healthyWorld sampleFields "Dockerfile-template"
                  sampleService = None))
  /\ (exists err,
       createConfigfile healthyWorld sampleFields "/srv/spinup/u1/pg1" sampleService
       = (renderRun healthyWorld sampleFields
            (filepathJoin healthyWorld "/srv/spinup/u1/pg1" "config.yaml")
            "config-template.yaml" sampleService,
          Returned err)
       /\ (err = None
           <-> snd (ParseFiles healthyWorld "config-template.yaml") = None
               /\ renderError healthyWorld sampleFields "config-template.yaml"
                    sampleService = None)).
Proof.
  apply (createDockerfile_createConfigfile_created healthyWorld sampleFields
           "/srv/spinup/u1/pg1" sampleService); reflexivity.
Defined.
